(** * srt-join: merging two subtitle tracks

    A shallow embedding of [main.py] and the properties of its timecode
    codec, overlap test, merge rule, block parser and two-cursor
    sequencer.

    Conventions of the embedding.
    - A Python [int] is a [Z] (unbounded).
    - A Python [str] is a [string]; a character is a code point below 256.
    - A function that may raise returns a [result]; the exception carries
      the message Python builds.
    - [warn] and [print] are recorded, in program order, as [event]s. *)

From Stdlib Require Import ZArith NArith List String Ascii Bool Lia.
From Stdlib Require Import Sorted Permutation.
Import ListNotations.

Local Open Scope string_scope.
Local Open Scope Z_scope.

(** ** Exceptions and the two effects of the program *)

Inductive exn : Type :=
| ValueError (msg : string)
| OSError (msg : string).

Inductive result (A : Type) : Type :=
| Ok (a : A)
| Raise (e : exn).

Arguments Ok {A} a.
Arguments Raise {A} e.

Definition bind {A B : Type} (r : result A) (k : A -> result B) : result B :=
  match r with
  | Ok a => k a
  | Raise e => Raise e
  end.

Notation "x <- r ;; k" := (bind r (fun x => k))
  (at level 61, r at next level, right associativity).

(** A list comprehension whose element expression may raise: the first
    exception, left to right, aborts the comprehension. *)
Fixpoint map_result {A B : Type} (f : A -> result B) (l : list A)
  : result (list B) :=
  match l with
  | [] => Ok []
  | a :: l' => b <- f a ;; bs <- map_result f l' ;; Ok (b :: bs)
  end.

Inductive event : Type :=
| Warn (msg : string)
| Stdout (s : string).

(** ** The Python built-ins the program calls *)

Module Py.

Definition LF : string := String (ascii_of_nat 10) "".

Definition code (c : ascii) : N := N_of_ascii c.

Definition is_digit (c : ascii) : bool :=
  ((48 <=? code c) && (code c <=? 57))%N.

Definition digit_val (c : ascii) : Z := Z.of_N (code c) - 48.

Definition digit_char (d : Z) : ascii := ascii_of_N (Z.to_N (48 + d)).

(** Characters [int] skips around a literal: the C white space of an ASCII
    string, and NEL and NBSP, which CPython first rewrites to a blank. *)
Definition int_space (c : ascii) : bool :=
  (((9 <=? code c) && (code c <=? 13)) || (code c =? 32)
   || (code c =? 133) || (code c =? 160))%N.

(** Characters matched by the pattern [\s] on a [str]. *)
Definition re_space (c : ascii) : bool :=
  (((9 <=? code c) && (code c <=? 13))
   || ((28 <=? code c) && (code c <=? 32))
   || (code c =? 133) || (code c =? 160))%N.

Fixpoint lstrip (s : string) : string :=
  match s with
  | String c s' => if int_space c then lstrip s' else s
  | EmptyString => EmptyString
  end.

Fixpoint rstrip (s : string) : string :=
  match s with
  | String c s' =>
      let r := rstrip s' in
      if int_space c && (r =? "")%string then "" else String c r
  | EmptyString => EmptyString
  end.

(** The digits of an [int] literal: decimal digits, with single underscores
    allowed between two digits. *)
Fixpoint int_body (acc : Z) (after_digit : bool) (s : string) : option Z :=
  match s with
  | EmptyString => if after_digit then Some acc else None
  | String c s' =>
      if is_digit c then int_body (acc * 10 + digit_val c) true s'
      else if Ascii.eqb c "_" && after_digit then int_body acc false s'
      else None
  end.

Definition backslash : ascii := ascii_of_nat 92.

Definition dquote : ascii := ascii_of_nat 34.

Fixpoint has_char (s : string) (c : ascii) : bool :=
  match s with
  | EmptyString => false
  | String d s' => Ascii.eqb d c || has_char s' c
  end.

Definition hex_digit (n : N) : ascii :=
  if (n <? 10)%N then ascii_of_N (48 + n) else ascii_of_N (87 + n).

(** The code points below 256 that [repr] writes as they are. *)
Definition printable (c : ascii) : bool :=
  (((32 <=? code c) && (code c <=? 126))
   || ((161 <=? code c) && negb (code c =? 173)))%N.

Definition repr_char (quote c : ascii) : string :=
  if Ascii.eqb c quote || Ascii.eqb c backslash then
    String backslash (String c "")
  else if (code c =? 9)%N then String backslash "t"
  else if (code c =? 10)%N then String backslash "n"
  else if (code c =? 13)%N then String backslash "r"
  else if printable c then String c ""
  else String backslash
         (String "x" (String (hex_digit (code c / 16))
                        (String (hex_digit (code c mod 16)) ""))).

Fixpoint repr_body (quote : ascii) (s : string) : string :=
  match s with
  | EmptyString => EmptyString
  | String c s' => repr_char quote c ++ repr_body quote s'
  end.

(** [repr(s)]: in single quotes, or in double quotes when [s] holds a
    single quote and no double quote. *)
Definition repr (s : string) : string :=
  let quote :=
    if has_char s "'" && negb (has_char s dquote) then dquote else "'"%char in
  String quote (repr_body quote s ++ String quote "").

(** The message of [int] on a bad literal: [%.200R] of the argument. *)
Definition int_error (s : string) : exn :=
  ValueError ("invalid literal for int() with base 10: "
              ++ substring 0 200 (repr s)).

(** [int(s)] *)
Definition int (s : string) : result Z :=
  let t := rstrip (lstrip s) in
  let '(neg, body) :=
    match t with
    | String "-" r => (true, r)
    | String "+" r => (false, r)
    | _ => (false, t)
    end in
  match int_body 0 false body with
  | Some v => Ok (if neg : bool then - v else v)
  | None => Raise (int_error s)
  end.

(** Decimal digits of a non-negative integer, most significant first. *)
Fixpoint digits_aux (fuel : nat) (n : Z) (acc : string) : string :=
  let acc' := String (digit_char (n mod 10)) acc in
  match fuel with
  | O => acc'
  | S f => if n / 10 =? 0 then acc' else digits_aux f (n / 10) acc'
  end.

Definition digits (n : Z) : string :=
  digits_aux (Z.to_nat (Z.log2 n)) n "".

(** [str(z)], which is also the replacement field [{z}] of an f-string. *)
Definition str (z : Z) : string :=
  if z <? 0 then "-" ++ digits (- z) else digits z.

Fixpoint zeros (n : nat) : string :=
  match n with
  | O => ""
  | S n' => String "0" (zeros n')
  end.

Definition zfill (w : nat) (s : string) : string :=
  zeros (w - String.length s) ++ s.

(** The replacement field [{z:0w}]: zero padding to width [w], placed
    between the sign and the digits. *)
Definition format0 (w : nat) (z : Z) : string :=
  if z <? 0 then "-" ++ zfill (w - 1) (digits (- z)) else zfill w (digits z).

(** [s.split(sep)] for a non-empty [sep]: [skip] counts the characters of a
    matched separator that are still to be dropped. *)
Fixpoint split_aux (sep : string) (skip : nat) (s : string)
  : string * list string :=
  match s with
  | EmptyString => ("", [])
  | String c s' =>
      match skip with
      | S k => split_aux sep k s'
      | O =>
          if String.prefix sep s then
            let '(p, ps) := split_aux sep (String.length sep - 1) s' in
            ("", p :: ps)
          else
            let '(p, ps) := split_aux sep 0 s' in
            (String c p, ps)
      end
  end.

Definition split (sep s : string) : list string :=
  let '(p, ps) := split_aux sep 0 s in p :: ps.

(** [re.split("\s", s, maxsplit)]: every single white-space character is a
    separator, and at most [maxsplit] of them are used. *)
Fixpoint re_split_space_aux (maxsplit : nat) (s : string)
  : string * list string :=
  match s with
  | EmptyString => ("", [])
  | String c s' =>
      match maxsplit with
      | O => (s, [])
      | S k =>
          if re_space c then
            let '(p, ps) := re_split_space_aux k s' in ("", p :: ps)
          else
            let '(p, ps) := re_split_space_aux maxsplit s' in
            (String c p, ps)
      end
  end.

Definition re_split_space (s : string) (maxsplit : nat) : list string :=
  let '(p, ps) := re_split_space_aux maxsplit s in p :: ps.

(** [sep.join(l)] *)
Fixpoint join (sep : string) (l : list string) : string :=
  match l with
  | [] => ""
  | [s] => s
  | s :: l' => s ++ sep ++ join sep l'
  end.

(** [s.count(c)] for a one-character [c]. *)
Fixpoint count (s : string) (c : ascii) : Z :=
  match s with
  | EmptyString => 0
  | String d s' => (if Ascii.eqb d c then 1 else 0) + count s' c
  end.

(** [s.index(c)] for a one-character [c]. *)
Fixpoint index_from (pos : Z) (s : string) (c : ascii) : result Z :=
  match s with
  | EmptyString => Raise (ValueError "substring not found")
  | String d s' => if Ascii.eqb d c then Ok pos else index_from (pos + 1) s' c
  end.

Definition index (s : string) (c : ascii) : result Z := index_from 0 s c.

(** [needle in hay] *)
Fixpoint contains (hay needle : string) : bool :=
  String.prefix needle hay
  || match hay with
     | EmptyString => false
     | String _ hay' => contains hay' needle
     end.

(** The message of a failed sequence unpacking. *)
Definition unpack_error (expected got : nat) : exn :=
  if (got <? expected)%nat then
    ValueError ("not enough values to unpack (expected "
                ++ str (Z.of_nat expected) ++ ", got "
                ++ str (Z.of_nat got) ++ ")")
  else
    ValueError ("too many values to unpack (expected "
                ++ str (Z.of_nat expected) ++ ")").

(** [sys.maxsize] of a 64-bit CPython. *)
Definition maxsize : Z := 2 ^ 63 - 1.

Definition stop_error : exn :=
  ValueError
    "Stop argument for islice() must be None or an integer: 0 <= x <= sys.maxsize.".

Definition indices_error : exn :=
  ValueError
    "Indices for islice() must be None or an integer: 0 <= x <= sys.maxsize.".

(** [islice(l, start, stop)]: the bounds are checked when the iterator is
    built.  Both are converted to [Py_ssize_t]: a [stop] that does not fit,
    or that is -1, is the stop error; a [start] that does not fit is taken
    as -1; then a negative [start] or a [stop] below -1 is the indices
    error.  The elements are those of [l[start:stop]]. *)
Definition islice {A : Type} (l : list A) (start stop : Z) : result (list A) :=
  if (stop =? -1) || (maxsize <? stop) || (stop <? - maxsize - 1) then
    Raise stop_error
  else if (start <? 0) || (maxsize <? start) || (stop <? -1) then
    Raise indices_error
  else Ok (skipn (Z.to_nat start) (firstn (Z.to_nat stop) l)).

(** [enumerate(l)] *)
Fixpoint enumerate_from {A : Type} (n : Z) (l : list A) : list (Z * A) :=
  match l with
  | [] => []
  | a :: l' => (n, a) :: enumerate_from (n + 1) l'
  end.

Definition enumerate {A : Type} (l : list A) : list (Z * A) :=
  enumerate_from 0 l.

(** [next(it, None)] on an iterator over the remaining items [it]. *)
Definition next {A : Type} (it : list A) : option A * list A :=
  match it with
  | [] => (None, [])
  | a :: it' => (Some a, it')
  end.

End Py.

(** ** Timecode codec *)

Definition srt_timecode_to_msecs (tc : string) : result Z :=
  match Py.split "," tc with
  | [hms; msec] =>
      msec <- Py.int msec ;;
      toks <- map_result Py.int (Py.split ":" hms) ;;
      match toks with
      | [hour; min; sec] =>
          Ok (msec + (sec * 1000) + (min * 1000 * 60) + (hour * 1000 * 60 * 60))
      | _ => Raise (Py.unpack_error 3 (List.length toks))
      end
  | l => Raise (Py.unpack_error 2 (List.length l))
  end.

Definition msecs_to_srt_timecode (xsecs : Z) : string :=
  let '(xsecs, msec) := (xsecs / 1000, xsecs mod 1000) in
  let '(xsecs, sec) := (xsecs / 60, xsecs mod 60) in
  let '(hour, min) := (xsecs / 60, xsecs mod 60) in
  Py.format0 2 hour ++ ":" ++ Py.format0 2 min ++ ":" ++ Py.format0 2 sec
  ++ "," ++ Py.format0 3 msec.

(** ** Entries, overlap and merge *)

Record SubtitleEntry : Type := mkSubtitleEntry {
  start : Z;
  end_ : Z;
  text : string
}.

(** [SubtitleEntry.__str__] *)
Definition SubtitleEntry_str (self : SubtitleEntry) : string :=
  "SubtitleEntry(" ++ Py.str (start self)
  ++ " (" ++ msecs_to_srt_timecode (start self) ++ "),"
  ++ " " ++ Py.str (end_ self)
  ++ " (" ++ msecs_to_srt_timecode (end_ self) ++ "),"
  ++ " " ++ Py.join " * " (Py.split Py.LF (text self)) ++ ")".

Definition has_overlap (e1 e2 : SubtitleEntry) : bool :=
  (* e1 [X] e2 *)
  if (start e1 <=? start e2) && (end_ e1 >=? start e2) then true
  (* e2 [X] e1 *)
  else if (end_ e1 >=? end_ e2) && (start e1 <=? end_ e2) then true
  (* e2 in e1 *)
  else if (start e1 <=? start e2) && (end_ e1 >=? end_ e2) then true
  (* e1 in e2 *)
  else if (start e1 >=? start e2) && (end_ e1 <=? end_ e2) then true
  else false.

Definition merge_entries (e1 e2 : SubtitleEntry) : SubtitleEntry :=
  let begin := Z.min (start e1) (start e2) in
  let end' := Z.max (end_ e1) (end_ e2) in
  let text' :=
    if begin =? start e1 then text e1 ++ Py.LF ++ text e2
    else text e2 ++ Py.LF ++ text e1 in
  mkSubtitleEntry begin end' text'.

(** ** Reading a file of subtitle blocks *)

Record Input : Type := mkInput {
  filename : string;
  skip_first : Z;
  skip_last : Z
}.

Definition arrow_error (idx : string) : exn :=
  ValueError ("at index " ++ idx ++ ": expected '-->'").

(** [_do_entry], the local function of [read_subs] *)
Definition do_entry (token : string) : result SubtitleEntry :=
  pos_timecode <- Py.index token ":" ;;
  match Py.re_split_space token 4 with
  | [idx; start'; arrow; end'; text'] =>
      if negb (arrow =? "-->")%string then Raise (arrow_error idx)
      else
        b <- srt_timecode_to_msecs start' ;;
        e <- srt_timecode_to_msecs end' ;;
        Ok (mkSubtitleEntry b e text')
  | l => Raise (Py.unpack_error 5 (List.length l))
  end.

(** The blocks of a file: the non-empty pieces between blank lines. *)
Definition blocks (content : string) : list string :=
  filter (fun tok => negb (tok =? "")%string)
         (Py.split (Py.LF ++ Py.LF) content).

Section Files.

(** [Path(name).read_text()]: the content of the file, or the exception of
    a file that cannot be read. *)
Variable read_text : string -> result string.

Definition read_subs (inp : Input) : result (list SubtitleEntry) :=
  content <- read_text (filename inp) ;;
  subs <- map_result do_entry (blocks content) ;;
  Py.islice subs (skip_first inp) (Z.of_nat (List.length subs) - skip_last inp).

End Files.

(** ** Rendering an entry *)

Definition excessive_lines (entry : SubtitleEntry) : event :=
  Warn ("Excessive line count detected in entry " ++ SubtitleEntry_str entry).

Definition render (entry : SubtitleEntry) (index : Z) : string :=
  Py.str index ++ Py.LF
  ++ msecs_to_srt_timecode (start entry) ++ " --> "
  ++ msecs_to_srt_timecode (end_ entry) ++ Py.LF
  ++ text entry.

(** [print_entry]: the warnings it raises, and the block it returns. *)
Definition print_entry (entry : SubtitleEntry) (index : Z)
  : list event * string :=
  ((if Py.count (text entry) (ascii_of_nat 10) >? 1
    then [excessive_lines entry] else []),
   render entry index).

(** ** The two-cursor sequencer *)

(** An item of [enumerate]: the position of an entry in its source, and
    the entry. *)
Abbreviation item := (Z * SubtitleEntry)%type.

Record state : Type := mkState {
  s1 : option item;
  i1 : list item;
  s2 : option item;
  i2 : list item;
  new_idx : Z;
  trace : list event
}.

(** [print(print_entry(entry, index), end="\n\n")] *)
Definition print_block (entry : SubtitleEntry) (index : Z) : list event :=
  let '(warnings, block) := print_entry entry index in
  (warnings ++ [Stdout (block ++ Py.LF ++ Py.LF)%string])%list.

Definition overlap_warning (a b : item) : event :=
  Warn ("overlap between file #1 index #" ++ Py.str (fst a) ++ " and "
        ++ "file #2 index #" ++ Py.str (fst b)
        ++ ": " ++ SubtitleEntry_str (snd a) ++ " , "
        ++ SubtitleEntry_str (snd b)).

(** One of the two inner [while] loops: the cursor [s] and its iterator [it]
    are printed to exhaustion, the index growing after each block. *)
Fixpoint drain_items (items : list item) (idx : Z) : list event * Z :=
  match items with
  | [] => ([], idx)
  | x :: items' =>
      let '(evs, idx') := drain_items items' (idx + 1) in
      ((print_block (snd x) idx ++ evs)%list, idx')
  end.

Definition pending (s : option item) (it : list item) : list item :=
  match s with
  | Some x => x :: it
  | None => []
  end.

Definition loop_cond (st : state) : bool :=
  match s1 st, s2 st with
  | None, None => false
  | _, _ => true
  end.

(** The body of the outer [while], entered with [loop_cond] true. *)
Definition loop_body (st : state) : state :=
  let idx := new_idx st + 1 in
  match s1 st, s2 st with
  | Some a, Some b =>
      let '(evs, did_print) :=
        if has_overlap (snd a) (snd b) then
          (overlap_warning a b
             :: print_block (merge_entries (snd a) (snd b)) idx, true)
        else ([], false) in
      if start (snd a) <? start (snd b) then
        let evs' := if did_print : bool then [] else print_block (snd a) idx in
        let '(n, it) := Py.next (i1 st) in
        mkState n it (s2 st) (i2 st) idx (trace st ++ evs ++ evs')%list
      else
        let evs' := if did_print : bool then [] else print_block (snd b) idx in
        let '(n, it) := Py.next (i2 st) in
        mkState (s1 st) (i1 st) n it idx (trace st ++ evs ++ evs')%list
  | _, _ =>
      let '(evs1, idx1) := drain_items (pending (s1 st) (i1 st)) idx in
      let '(evs2, idx2) := drain_items (pending (s2 st) (i2 st)) idx1 in
      mkState None [] None [] idx2 (trace st ++ evs1 ++ evs2)%list
  end.

(** The entries not yet taken from the two cursors. *)
Definition measure (st : state) : nat :=
  List.length (pending (s1 st) (i1 st)) + List.length (pending (s2 st) (i2 st)).

Fixpoint run (fuel : nat) (st : state) : option state :=
  if loop_cond st then
    match fuel with
    | O => None
    | S fuel' => run fuel' (loop_body st)
    end
  else Some st.

(** The state in which the outer [while] is reached. *)
Definition init (subs1 subs2 : list SubtitleEntry) : state :=
  let '(c1, r1) := Py.next (Py.enumerate subs1) in
  let '(c2, r2) := Py.next (Py.enumerate subs2) in
  mkState c1 r1 c2 r2 0 [].

(** The part of [main] after the two files are read.  Each turn of the loop
    takes at least one entry, so the fuel below is never used up. *)
Definition sequencer (subs1 subs2 : list SubtitleEntry) : option state :=
  run (List.length subs1 + List.length subs2) (init subs1 subs2).

Definition main (read_text : string -> result string) (in1 in2 : Input)
  : result (option (list event)) :=
  subs1 <- read_subs read_text in1 ;;
  subs2 <- read_subs read_text in2 ;;
  Ok (option_map trace (sequencer subs1 subs2)).

(** The blocks written to standard output, in order. *)
Fixpoint stdout_of (evs : list event) : list string :=
  match evs with
  | [] => []
  | Stdout s :: evs' => s :: stdout_of evs'
  | Warn _ :: evs' => stdout_of evs'
  end.

Fixpoint warnings_of (evs : list event) : list string :=
  match evs with
  | [] => []
  | Warn s :: evs' => s :: warnings_of evs'
  | Stdout _ :: evs' => warnings_of evs'
  end.

(** ** Notions used to state the properties *)

(** The closed intervals of two entries share an instant: the one-line
    predicate proposed in place of the four cases of [has_overlap]. *)
Definition intervals_intersect (e1 e2 : SubtitleEntry) : bool :=
  (start e1 <=? end_ e2) && (start e2 <=? end_ e1).

Fixpoint str_all (p : ascii -> bool) (s : string) : bool :=
  match s with
  | EmptyString => true
  | String c s' => p c && str_all p s'
  end.

(** The number written by a string of decimal digits. *)
Fixpoint digits_value_from (acc : Z) (s : string) : Z :=
  match s with
  | EmptyString => acc
  | String c s' => digits_value_from (acc * 10 + Py.digit_val c) s'
  end.

Definition digits_value (s : string) : Z := digits_value_from 0 s.

(** A timecode of the shape [HH:MM:SS,mmm]: two, two, two and three decimal
    digits around the two colons and the comma. *)
Definition well_formed_timecode (s : string) : bool :=
  (String.length s =? 12)%nat
  && str_all Py.is_digit (substring 0 2 s)
  && (substring 2 1 s =? ":")%string
  && str_all Py.is_digit (substring 3 2 s)
  && (substring 5 1 s =? ":")%string
  && str_all Py.is_digit (substring 6 2 s)
  && (substring 8 1 s =? ",")%string
  && str_all Py.is_digit (substring 9 3 s).

Definition hour_field (s : string) : Z := digits_value (substring 0 2 s).
Definition minute_field (s : string) : Z := digits_value (substring 3 2 s).
Definition second_field (s : string) : Z := digits_value (substring 6 2 s).

(** The blocks of entries printed under consecutive indices from [k]. *)
Fixpoint blocks_from (k : Z) (es : list SubtitleEntry) : list string :=
  match es with
  | [] => []
  | e :: es' => (render e k ++ Py.LF ++ Py.LF) :: blocks_from (k + 1) es'
  end.

(** The overlap warnings of a run, one for each merge. *)
Definition is_overlap_warning (ev : event) : bool :=
  match ev with
  | Warn msg => String.prefix "overlap between" msg
  | Stdout _ => false
  end.

Definition merges (evs : list event) : nat :=
  List.length (filter is_overlap_warning evs).

(** An exception that is not the arrow error of any index. *)
Definition not_arrow_error (e : exn) : Prop :=
  forall idx, e <> arrow_error idx.

(** The pieces of a block as [_do_entry] names them. *)
Definition third_token (token : string) : option string :=
  nth_error (Py.re_split_space token 4) 2.

(** ** The entries the sequencer prints

    The two-pointer scan of [main] as a recursive function: the entry
    printed for the two heads, then the scan of what is left once the head
    that starts first (the second on a tie) is taken. *)
Fixpoint emitted (l1 : list SubtitleEntry)
  : list SubtitleEntry -> list SubtitleEntry :=
  fix scan (l2 : list SubtitleEntry) : list SubtitleEntry :=
    match l1, l2 with
    | a :: r1, b :: r2 =>
        (if has_overlap a b then merge_entries a b
         else if start a <? start b then a else b)
        :: (if start a <? start b then emitted r1 l2 else scan r2)
    | _, [] => l1
    | [], _ => l2
    end.

(** The number of merged entries among them. *)
Fixpoint merged_count (l1 : list SubtitleEntry)
  : list SubtitleEntry -> nat :=
  fix scan (l2 : list SubtitleEntry) : nat :=
    match l1, l2 with
    | a :: r1, b :: r2 =>
        Nat.add (if has_overlap a b then 1%nat else 0%nat)
                (if start a <? start b then merged_count r1 l2 else scan r2)
    | _, _ => 0%nat
    end.

(** Where a printed entry comes from: a source, or the merge of two
    overlapping entries, one of each source. *)
Definition from_sources (l1 l2 : list SubtitleEntry) (e : SubtitleEntry)
  : Prop :=
  In e l1 \/ In e l2
  \/ exists a b, In a l1 /\ In b l2 /\ has_overlap a b = true
                 /\ e = merge_entries a b.

Definition by_start (a b : SubtitleEntry) : Prop := start a <= start b.

Definition msec_field (s : string) : Z := digits_value (substring 9 3 s).

(** The characters of a decimal number with its sign. *)
Definition signed_char (c : ascii) : bool := Py.is_digit c || Ascii.eqb c "-".

(** The characters a timecode or a decimal number is written with. *)
Definition tc_char (c : ascii) : bool :=
  Py.is_digit c || Ascii.eqb c ":" || Ascii.eqb c "," || Ascii.eqb c "-".

(** ** The command line

    The block under [if __name__ == '__main__'].  An exception of the
    program is [exn]; the converter of [-s] also meets [IndexError], and
    turns a [ValueError] into the [ArgumentTypeError] that [argparse]
    reports. *)

Inductive py_exn : Type :=
| Exn (e : exn)
| IndexError (msg : string)
| ArgumentTypeError (msg : string).

Inductive outcome (A : Type) : Type :=
| Return (a : A)
| Throw (e : py_exn).

Arguments Return {A} a.
Arguments Throw {A} e.

Definition and_then {A B : Type} (o : outcome A) (k : A -> outcome B)
  : outcome B :=
  match o with
  | Return a => k a
  | Throw e => Throw e
  end.

Definition lift {A : Type} (r : result A) : outcome A :=
  match r with
  | Ok a => Return a
  | Raise e => Throw (Exn e)
  end.

Definition raise_ValueError {A : Type} (msg : string) : outcome A :=
  Throw (Exn (ValueError msg)).

(** [_skipspec]: a [dict] from the number of the input to its two counts,
    as the list of its items in insertion order. *)
Definition skipspec : Type := list (Z * (Z * Z)).

Fixpoint dict_get (d : skipspec) (k : Z) : option (Z * Z) :=
  match d with
  | [] => None
  | (k', v) :: d' => if k' =? k then Some v else dict_get d' k
  end.

Definition dict_mem (d : skipspec) (k : Z) : bool :=
  match dict_get d k with
  | Some _ => true
  | None => false
  end.

Fixpoint dict_set (d : skipspec) (k : Z) (v : Z * Z) : skipspec :=
  match d with
  | [] => [(k, v)]
  | (k', v') :: d' =>
      if k' =? k then (k, v) :: d' else (k', v') :: dict_set d' k v
  end.

(** One turn of the loop over [rest.split(',')]. *)
Definition skip_item (v : string) (acc : Z * Z) : outcome (Z * Z) :=
  let '(s_first, s_last) := acc in
  match v with
  | EmptyString => Throw (IndexError "string index out of range")
  | String v0 v1 =>
      if Ascii.eqb v0 "+" then
        if s_first =? 0 then
          and_then (lift (Py.int v1)) (fun s_first =>
          if s_first <=? 0
          then raise_ValueError "skip-first: expected positive number"
          else Return (s_first, s_last))
        else raise_ValueError "skip-first (+) already specified"
      else if Ascii.eqb v0 "-" then
        if s_last =? 0 then
          and_then (lift (Py.int v1)) (fun s_last =>
          if s_last <=? 0
          then raise_ValueError "skip-last: expected positive number"
          else Return (s_first, s_last))
        else raise_ValueError "skip-last (-) already specified"
      else raise_ValueError ("unrecognized specifier " ++ String v0 "")
  end.

Fixpoint skip_items (vs : list string) (acc : Z * Z) : outcome (Z * Z) :=
  match vs with
  | [] => Return acc
  | v :: vs' => and_then (skip_item v acc) (skip_items vs')
  end.

(** The body of the [try] of [_tokenize_skipspec]. *)
Definition tokenize_body (d : skipspec) (value : string) : outcome skipspec :=
  match Py.split ":" value with
  | [spec; rest] =>
      and_then (lift (Py.int spec)) (fun spec =>
      if negb ((1 <=? spec) && (spec <? 3)) then
        raise_ValueError ("specifier out of range: " ++ Py.str spec)
      else if dict_mem d spec then
        raise_ValueError ("specifier " ++ Py.str spec ++ " already used")
      else
        and_then (skip_items (Py.split "," rest) (0, 0)) (fun counts =>
        Return (dict_set d spec counts)))
  | l => lift (Raise (Py.unpack_error 2 (List.length l)))
  end.

(** [_tokenize_skipspec]: [except ValueError] rewraps, the rest passes. *)
Definition tokenize_skipspec (d : skipspec) (value : string)
  : outcome skipspec :=
  match tokenize_body d value with
  | Throw (Exn (ValueError msg)) =>
      Throw (ArgumentTypeError ("parse error: " ++ msg))
  | o => o
  end.

(** The values of the [-s] options, converted in the order given. *)
Fixpoint tokenize_all (d : skipspec) (values : list string)
  : outcome skipspec :=
  match values with
  | [] => Return d
  | v :: values' => and_then (tokenize_skipspec d v)
                             (fun d' => tokenize_all d' values')
  end.

Definition input_of (d : skipspec) (k : Z) (name : string) : Input :=
  let skip :=
    match dict_get d k with
    | Some v => v
    | None => (0, 0)
    end in
  mkInput name (fst skip) (snd skip).

(** The script: the [-s] values, the two file names, then [main]. *)
Definition script (read_text : string -> result string)
  (values : list string) (first second : string)
  : outcome (option (list event)) :=
  and_then (tokenize_all [] values) (fun d =>
  lift (main read_text (input_of d 1 first) (input_of d 2 second))).

(** The ways the body of the converter can end. *)
Definition expected (A : Type) (o : outcome A) : Prop :=
  (exists a, o = Return a)
  \/ (exists msg, o = Throw (Exn (ValueError msg)))
  \/ o = Throw (IndexError "string index out of range").

(** What every accepted [-s] value leaves in [_skipspec]: distinct keys
    among 1 and 2, and counts that are not negative. *)
Definition skipspec_ok (d : skipspec) : Prop :=
  NoDup (map fst d)
  /\ Forall (fun kv => (fst kv = 1 \/ fst kv = 2)
                       /\ 0 <= fst (snd kv) /\ 0 <= snd (snd kv)) d.

(** ** Sample files *)

Definition one_block : string := "1 00:00:01,000 --> 00:00:02,000 a".

Definition three_blocks : string :=
  ("1 00:00:01,000 --> 00:00:02,000 a" ++ Py.LF ++ Py.LF
   ++ "2 00:00:03,000 --> 00:00:04,000 b" ++ Py.LF ++ Py.LF
   ++ "3 00:00:05,000 --> 00:00:06,000 c")%string.

Definition three_entries : list SubtitleEntry :=
  [mkSubtitleEntry 1000 2000 "a"; mkSubtitleEntry 3000 4000 "b";
   mkSubtitleEntry 5000 6000 "c"].

(** * Properties *)

(** ** Overlap and merge *)

Ltac unfold_overlap :=
  unfold has_overlap, intervals_intersect;
  repeat match goal with
         | |- context [?a <=? ?b] => destruct (Z.leb_spec a b)
         | |- context [?a >=? ?b] => destruct (Z.geb_spec a b)
         end; cbn.

(** C4: for entries whose end is not before their start, [has_overlap] is
    true exactly when [e1.start <= e2.end] and [e2.start <= e1.end]; the four
    cases are the closed-interval intersection test, touching ends
    included. *)
Theorem has_overlap_closed_intervals (e1 e2 : SubtitleEntry) :
  start e1 <= end_ e1 -> start e2 <= end_ e2 ->
  has_overlap e1 e2 = intervals_intersect e1 e2
  /\ (has_overlap e1 e2 = true <->
      start e1 <= end_ e2 /\ start e2 <= end_ e1).
Proof.
  intros H1 H2. split.
  - unfold_overlap; reflexivity || lia.
  - unfold_overlap; split; intros; (lia || discriminate || reflexivity || idtac);
      try (split; lia).
Qed.

Lemma has_overlap_closed_intervals_witness :
  has_overlap (mkSubtitleEntry 0 1000 "a") (mkSubtitleEntry 1000 2000 "b")
    = intervals_intersect (mkSubtitleEntry 0 1000 "a")
                          (mkSubtitleEntry 1000 2000 "b")
  /\ (has_overlap (mkSubtitleEntry 0 1000 "a") (mkSubtitleEntry 1000 2000 "b")
        = true <-> 0 <= 2000 /\ 1000 <= 1000).
Proof.
  apply (has_overlap_closed_intervals
           (mkSubtitleEntry 0 1000 "a") (mkSubtitleEntry 1000 2000 "b"));
    simpl; lia.
Defined.

(** C9: [has_overlap] is symmetric for all entries, also those whose end
    is before their start. *)
Theorem has_overlap_sym (a b : SubtitleEntry) :
  has_overlap a b = has_overlap b a.
Proof.
  unfold_overlap; reflexivity || lia.
Qed.

(** C5: [merge_entries] spans from the smaller start to the larger end, and
    puts first the text of the entry that starts at the combined start, then
    a line break, then the other text; on equal starts [e1] comes first. *)
Theorem merge_entries_spec (e1 e2 : SubtitleEntry) :
  start (merge_entries e1 e2) = Z.min (start e1) (start e2)
  /\ end_ (merge_entries e1 e2) = Z.max (end_ e1) (end_ e2)
  /\ text (merge_entries e1 e2) =
       (if start e1 <=? start e2
        then (text e1 ++ Py.LF ++ text e2)%string
        else (text e2 ++ Py.LF ++ text e1)%string)
  /\ (start e1 <=? start e2) =
       (start e1 =? start (merge_entries e1 e2)).
Proof.
  unfold merge_entries; cbn.
  repeat split; try reflexivity.
  - destruct (Z.leb_spec (start e1) (start e2)),
             (Z.eqb_spec (Z.min (start e1) (start e2)) (start e1));
      reflexivity || lia.
  - destruct (Z.leb_spec (start e1) (start e2)),
             (Z.eqb_spec (start e1) (Z.min (start e1) (start e2)));
      reflexivity || lia.
Qed.

(** ** Rendering *)

Lemma stdout_of_app (xs ys : list event) :
  stdout_of (xs ++ ys) = (stdout_of xs ++ stdout_of ys)%list.
Proof.
  induction xs as [|[m|s] xs IH]; cbn; [reflexivity|assumption|].
  now rewrite IH.
Qed.

Lemma stdout_of_print_block (e : SubtitleEntry) (k : Z) :
  stdout_of (print_block e k) = [(render e k ++ Py.LF ++ Py.LF)%string].
Proof.
  unfold print_block, print_entry.
  destruct (Py.count (text e) (ascii_of_nat 10) >? 1); reflexivity.
Qed.

(** C8: [print_entry] warns exactly when the text holds more than one line
    break, and with or without the warning it returns the block: index line,
    timecode range line, text. *)
Theorem print_entry_warns_iff (entry : SubtitleEntry) (index : Z) :
  (fst (print_entry entry index) = [excessive_lines entry]
   <-> Py.count (text entry) (ascii_of_nat 10) > 1)
  /\ (fst (print_entry entry index) = []
      <-> Py.count (text entry) (ascii_of_nat 10) <= 1)
  /\ snd (print_entry entry index) =
       (Py.str index ++ Py.LF
        ++ msecs_to_srt_timecode (start entry) ++ " --> "
        ++ msecs_to_srt_timecode (end_ entry) ++ Py.LF
        ++ text entry)%string.
Proof.
  unfold print_entry; cbn [fst snd].
  destruct (Z.gtb_spec (Py.count (text entry) (ascii_of_nat 10)) 1) as [Hc|Hc].
  - repeat split; intros; try lia; try discriminate; reflexivity.
  - repeat split; intros; try lia; try discriminate; reflexivity.
Qed.

(** ** The sequencer *)

Lemma blocks_from_app (k : Z) (es fs : list SubtitleEntry) :
  blocks_from k (es ++ fs) =
  (blocks_from k es ++ blocks_from (k + Z.of_nat (List.length es)) fs)%list.
Proof.
  revert k; induction es as [|e es IH]; intro k; cbn [blocks_from app List.length].
  - now rewrite Z.add_0_r.
  - rewrite IH. cbn [app]. do 3 f_equal. lia.
Qed.

Lemma blocks_from_length (k : Z) (es : list SubtitleEntry) :
  List.length (blocks_from k es) = List.length es.
Proof.
  revert k; induction es as [|e es IH]; intro k; cbn; [reflexivity|].
  now rewrite IH.
Qed.

Lemma drain_items_spec (items : list item) (idx : Z) :
  snd (drain_items items idx) = idx + Z.of_nat (List.length items)
  /\ stdout_of (fst (drain_items items idx)) = blocks_from idx (map snd items).
Proof.
  revert idx; induction items as [|x items IH]; intro idx;
    cbn [drain_items map List.length blocks_from].
  - split; [cbn; lia|reflexivity].
  - destruct (IH (idx + 1)) as [Hn Ho].
    destruct (drain_items items (idx + 1)) as [evs idx'] eqn:E.
    cbn [fst snd] in *. split; [lia|].
    now rewrite stdout_of_app, stdout_of_print_block, Ho.
Qed.

Lemma enumerate_from_length {A : Type} (n : Z) (l : list A) :
  List.length (Py.enumerate_from n l) = List.length l.
Proof.
  revert n; induction l as [|a l IH]; intro n; cbn; [reflexivity|].
  now rewrite IH.
Qed.

Lemma measure_init (l1 l2 : list SubtitleEntry) :
  measure (init l1 l2) = (List.length l1 + List.length l2)%nat.
Proof.
  unfold init, measure, Py.enumerate.
  destruct l1 as [|a l1], l2 as [|b l2]; cbn;
    rewrite ?enumerate_from_length; lia.
Qed.

Ltac one_block :=
  cbn [Py.next trace s1 s2 i1 i2 new_idx pending List.length];
  rewrite ?app_nil_r, !stdout_of_app;
  cbn [stdout_of overlap_warning];
  rewrite ?stdout_of_print_block;
  cbn [blocks_from];
  repeat split; try reflexivity; try lia; try discriminate.

(** One turn of the loop prints the blocks of some entries under the indices
    that follow [new_idx], and takes exactly that many entries from the
    cursors; while both cursors stay active it is one entry, and [new_idx]
    counts the blocks printed so far. *)
Lemma loop_body_spec (st : state) :
  loop_cond st = true ->
  exists es,
    stdout_of (trace (loop_body st)) =
      (stdout_of (trace st) ++ blocks_from (new_idx st + 1) es)%list
    /\ (measure (loop_body st) + List.length es = measure st)%nat
    /\ (es <> [])
    /\ (loop_cond (loop_body st) = true ->
        new_idx (loop_body st) = new_idx st + Z.of_nat (List.length es)).
Proof.
  unfold loop_cond, loop_body, measure.
  destruct (s1 st) as [a|] eqn:E1, (s2 st) as [b|] eqn:E2; intro Hc;
    try discriminate.
  - (* both cursors active *)
    destruct (has_overlap (snd a) (snd b)).
    + exists [merge_entries (snd a) (snd b)].
      destruct (start (snd a) <? start (snd b));
        [destruct (i1 st) as [|x r] | destruct (i2 st) as [|x r]];
        one_block.
    + destruct (start (snd a) <? start (snd b)).
      * exists [snd a]. destruct (i1 st) as [|x r]; one_block.
      * exists [snd b]. destruct (i2 st) as [|x r]; one_block.
  - (* only cursor 1 active *)
    exists (map snd (a :: i1 st)).
    cbn [pending].
    destruct (drain_items_spec (a :: i1 st) (new_idx st + 1)) as [Hn Ho].
    destruct (drain_items (a :: i1 st) (new_idx st + 1)) as [evs1 idx1].
    cbn [drain_items fst snd] in *.
    cbn [trace s1 s2 i1 i2 new_idx pending List.length].
    rewrite app_nil_r, stdout_of_app, Ho, length_map.
    repeat split; try reflexivity; try (cbn [List.length]; lia); try discriminate.
  - (* only cursor 2 active *)
    exists (map snd (b :: i2 st)).
    cbn [pending].
    remember (b :: i2 st) as items eqn:Ei.
    cbn [drain_items].
    destruct (drain_items_spec items (new_idx st + 1)) as [Hn Ho].
    destruct (drain_items items (new_idx st + 1)) as [evs2 idx2].
    subst items. cbn [fst snd] in *.
    cbn [trace s1 s2 i1 i2 new_idx pending List.length app].
    rewrite stdout_of_app, Ho, length_map.
    repeat split; try reflexivity; try (cbn [List.length]; lia); try discriminate.
Qed.

Lemma loop_cond_false_measure (st : state) :
  loop_cond st = false -> measure st = 0%nat.
Proof.
  unfold loop_cond, measure.
  destruct (s1 st), (s2 st); intro H; try discriminate; reflexivity.
Qed.

Lemma run_unfold (fuel : nat) (st : state) :
  run fuel st =
  if loop_cond st then
    match fuel with
    | O => None
    | S fuel' => run fuel' (loop_body st)
    end
  else Some st.
Proof. destruct fuel; reflexivity. Qed.

(** The loop ends within [measure st] turns; it prints one block for each
    entry still pending, under the indices that continue those already
    printed. *)
Lemma run_spec (fuel : nat) :
  forall (st : state) (es : list SubtitleEntry),
    (measure st <= fuel)%nat ->
    stdout_of (trace st) = blocks_from 1 es ->
    (loop_cond st = true -> new_idx st = Z.of_nat (List.length es)) ->
    exists st' es',
      run fuel st = Some st'
      /\ loop_cond st' = false
      /\ stdout_of (trace st') = blocks_from 1 (es ++ es')
      /\ List.length es' = measure st.
Proof.
  induction fuel as [|fuel IH]; intros st es Hm Ho Hi;
    rewrite run_unfold; destruct (loop_cond st) eqn:C.
  - destruct (loop_body_spec st C) as (es0 & _ & Hd & Hne & _).
    destruct es0; [congruence | cbn in Hd; lia].
  - exists st, []. rewrite app_nil_r, (loop_cond_false_measure st C).
    repeat split; assumption || reflexivity.
  - destruct (loop_body_spec st C) as (es0 & Hb & Hd & Hne & Hn).
    specialize (Hi eq_refl).
    destruct (IH (loop_body st) (es ++ es0)%list) as (st' & es' & Hr & Hc & Hs & Hl).
    + destruct es0; [congruence | cbn in Hd; lia].
    + rewrite Hb, Ho, blocks_from_app. do 2 f_equal. lia.
    + intro C'. rewrite (Hn C'), length_app. lia.
    + exists st', (es0 ++ es')%list. rewrite app_assoc, length_app.
      repeat split; try assumption. lia.
  - exists st, []. rewrite app_nil_r, (loop_cond_false_measure st C).
    repeat split; assumption || reflexivity.
Qed.

Lemma sequencer_spec (l1 l2 : list SubtitleEntry) :
  exists st es,
    sequencer l1 l2 = Some st
    /\ loop_cond st = false
    /\ stdout_of (trace st) = blocks_from 1 es
    /\ List.length es = (List.length l1 + List.length l2)%nat.
Proof.
  destruct (run_spec (List.length l1 + List.length l2) (init l1 l2) [])
    as (st & es & Hr & Hc & Hs & Hl).
  - rewrite measure_init. lia.
  - destruct l1, l2; reflexivity.
  - destruct l1, l2; reflexivity.
  - exists st, es. rewrite measure_init in Hl. now repeat split.
Qed.

(** C3: every run of the sequencer ends, and the blocks it prints carry the
    indices 1, 2, ..., N in the order of printing, N being the number of
    blocks printed. *)
Theorem sequencer_indices (l1 l2 : list SubtitleEntry) :
  exists st es,
    sequencer l1 l2 = Some st
    /\ stdout_of (trace st) = blocks_from 1 es
    /\ List.length (stdout_of (trace st)) = List.length es.
Proof.
  destruct (sequencer_spec l1 l2) as (st & es & Hr & _ & Hs & _).
  exists st, es. repeat split; try assumption.
  now rewrite Hs, blocks_from_length.
Qed.

(** C2 as amended: every run prints exactly as many blocks as the two
    sources hold entries, with or without overlaps; a merge takes the place
    of one block and removes none. *)
Theorem sequencer_count (l1 l2 : list SubtitleEntry) :
  exists st,
    sequencer l1 l2 = Some st
    /\ List.length (stdout_of (trace st))
       = (List.length l1 + List.length l2)%nat.
Proof.
  destruct (sequencer_spec l1 l2) as (st & es & Hr & _ & Hs & Hl).
  exists st. split; [assumption|].
  now rewrite Hs, blocks_from_length.
Qed.

(** C2 as stated fails: with one entry in each source and one overlap, two
    blocks are printed, not one. *)
Lemma sequencer_count_counterexample :
  option_map (fun st => (merges (trace st), List.length (stdout_of (trace st))))
    (sequencer [mkSubtitleEntry 0 2000 "A"] [mkSubtitleEntry 1000 3000 "B"])
  = Some (1%nat, 2%nat)
  /\ (2 <> 1 + 1 - 1)%nat.
Proof. split; [vm_compute; reflexivity | lia]. Qed.

(** C1 as amended: when both cursors are active and their entries overlap,
    the merged entry is printed once, under the new index, and exactly one
    cursor moves: cursor 1 when its entry starts first, cursor 2 otherwise;
    the entry left behind is met again by the next turn.  For source 1 =
    [(0,2000,A)] and source 2 = [(1000,3000,B)] the output is the merged
    entry 1, 00:00:00,000 --> 00:00:03,000 with text A, B, and then B again
    as entry 2. *)
Theorem overlap_step (st : state) (a b : item) :
  s1 st = Some a -> s2 st = Some b ->
  has_overlap (snd a) (snd b) = true ->
  new_idx (loop_body st) = new_idx st + 1
  /\ trace (loop_body st) =
       (trace st ++ overlap_warning a b
          :: print_block (merge_entries (snd a) (snd b)) (new_idx st + 1))%list
  /\ stdout_of (overlap_warning a b
          :: print_block (merge_entries (snd a) (snd b)) (new_idx st + 1))
       = [(render (merge_entries (snd a) (snd b)) (new_idx st + 1)
           ++ Py.LF ++ Py.LF)%string]
  /\ (if start (snd a) <? start (snd b)
      then (s1 (loop_body st), i1 (loop_body st)) = Py.next (i1 st)
           /\ s2 (loop_body st) = Some b /\ i2 (loop_body st) = i2 st
      else (s2 (loop_body st), i2 (loop_body st)) = Py.next (i2 st)
           /\ s1 (loop_body st) = Some a /\ i1 (loop_body st) = i1 st)
  /\ option_map (fun st' => stdout_of (trace st'))
       (sequencer [mkSubtitleEntry 0 2000 "A"] [mkSubtitleEntry 1000 3000 "B"])
     = Some [("1" ++ Py.LF ++ "00:00:00,000 --> 00:00:03,000" ++ Py.LF
              ++ "A" ++ Py.LF ++ "B" ++ Py.LF ++ Py.LF)%string;
             ("2" ++ Py.LF ++ "00:00:01,000 --> 00:00:03,000" ++ Py.LF
              ++ "B" ++ Py.LF ++ Py.LF)%string].
Proof.
  intros E1 E2 Ho. unfold loop_body. rewrite E1, E2, Ho.
  destruct (start (snd a) <? start (snd b)).
  - destruct (i1 st) as [|x r];
      cbn [Py.next new_idx trace s1 s2 i1 i2 stdout_of overlap_warning];
      rewrite app_nil_r, stdout_of_print_block;
      repeat split; try reflexivity; try assumption.
  - destruct (i2 st) as [|x r];
      cbn [Py.next new_idx trace s1 s2 i1 i2 stdout_of overlap_warning];
      rewrite app_nil_r, stdout_of_print_block;
      repeat split; try reflexivity; try assumption.
Qed.

Lemma overlap_step_witness :
  new_idx (loop_body (init [mkSubtitleEntry 0 2000 "A"]
                           [mkSubtitleEntry 1000 3000 "B"])) = 0 + 1
  /\ s1 (loop_body (init [mkSubtitleEntry 0 2000 "A"]
                         [mkSubtitleEntry 1000 3000 "B"])) = None
  /\ s2 (loop_body (init [mkSubtitleEntry 0 2000 "A"]
                         [mkSubtitleEntry 1000 3000 "B"]))
     = Some (0, mkSubtitleEntry 1000 3000 "B").
Proof.
  destruct (overlap_step
              (init [mkSubtitleEntry 0 2000 "A"] [mkSubtitleEntry 1000 3000 "B"])
              (0, mkSubtitleEntry 0 2000 "A")
              (0, mkSubtitleEntry 1000 3000 "B")
              eq_refl eq_refl eq_refl) as (Hn & _ & _ & Hc & _).
  cbn in Hc. destruct Hc as (Hc1 & Hc2 & _).
  split; [exact Hn | split; [exact (f_equal fst Hc1) | exact Hc2]].
Defined.

(** C1 as stated fails: after the merge of A and B only cursor 1 has moved,
    and the run prints two blocks, the second being B alone. *)
Lemma overlap_step_counterexample :
  has_overlap (mkSubtitleEntry 0 2000 "A") (mkSubtitleEntry 1000 3000 "B")
    = true
  /\ s2 (loop_body (init [mkSubtitleEntry 0 2000 "A"]
                         [mkSubtitleEntry 1000 3000 "B"]))
     = Some (0, mkSubtitleEntry 1000 3000 "B")
  /\ option_map (fun st' => stdout_of (trace st'))
       (sequencer [mkSubtitleEntry 0 2000 "A"] [mkSubtitleEntry 1000 3000 "B"])
     <> Some [("1" ++ Py.LF ++ "00:00:00,000 --> 00:00:03,000" ++ Py.LF
               ++ "A" ++ Py.LF ++ "B" ++ Py.LF ++ Py.LF)%string]
  /\ option_map (fun st' => List.length (stdout_of (trace st')))
       (sequencer [mkSubtitleEntry 0 2000 "A"] [mkSubtitleEntry 1000 3000 "B"])
     = Some 2%nat.
Proof.
  repeat split; try (vm_compute; reflexivity).
  vm_compute. discriminate.
Qed.

(** ** Reading blocks *)

Lemma map_result_length {A B : Type} (f : A -> result B) (l : list A) :
  forall bs, map_result f l = Ok bs -> List.length bs = List.length l.
Proof.
  induction l as [|a l IH]; cbn; intros bs H.
  - now inversion H.
  - destruct (f a) as [b|e]; cbn in H; [|discriminate].
    destruct (map_result f l) as [bs'|e]; cbn in H; [|discriminate].
    inversion H; subst; cbn. now rewrite (IH bs' eq_refl).
Qed.

Lemma map_result_raise_in {A B : Type} (f : A -> result B) (l : list A) :
  forall a e, In a l -> f a = Raise e -> exists e', map_result f l = Raise e'.
Proof.
  induction l as [|x l IH]; cbn; intros a e Hin Hf; [contradiction|].
  destruct Hin as [->|Hin].
  - rewrite Hf. now exists e.
  - destruct (f x) as [b|e']; cbn; [|now exists e'].
    destruct (IH a e Hin Hf) as [e' ->]. now exists e'.
Qed.

(** C10: when [skip_last] exceeds the number of blocks of the file,
    [read_subs] raises: no sequence, empty or shortened, is returned, and
    once every block has parsed the stop bound is negative and the exception
    is the [ValueError] [islice] raises for it: the stop error for -1 or for
    a bound below the machine range, the indices error otherwise. *)
Theorem read_subs_skip_last_too_large
  (read_text : string -> result string) (inp : Input) (content : string) :
  read_text (filename inp) = Ok content ->
  skip_last inp > Z.of_nat (List.length (blocks content)) ->
  (exists e, read_subs read_text inp = Raise e)
  /\ (forall subs, map_result do_entry (blocks content) = Ok subs ->
      Z.of_nat (List.length subs) - skip_last inp < 0
      /\ read_subs read_text inp
         = Raise (if (Z.of_nat (List.length subs) - skip_last inp =? -1)
                     || (Z.of_nat (List.length subs) - skip_last inp
                         <? - Py.maxsize - 1)
                  then Py.stop_error else Py.indices_error)).
Proof.
  intros Hr Hs.
  assert (Hall : forall subs, map_result do_entry (blocks content) = Ok subs ->
            Z.of_nat (List.length subs) - skip_last inp < 0
            /\ read_subs read_text inp
               = Raise (if (Z.of_nat (List.length subs) - skip_last inp =? -1)
                           || (Z.of_nat (List.length subs) - skip_last inp
                               <? - Py.maxsize - 1)
                        then Py.stop_error else Py.indices_error)).
  { intros subs Hm. pose proof (map_result_length _ _ _ Hm) as Hl.
    split; [lia|].
    unfold read_subs. rewrite Hr; cbn [bind]. rewrite Hm; cbn [bind].
    unfold Py.islice.
    set (stop := Z.of_nat (List.length subs) - skip_last inp).
    assert (Hneg : stop < 0) by (unfold stop; lia).
    assert (Hmax : 0 < Py.maxsize) by reflexivity.
    destruct (Z.eqb_spec stop (-1)) as [E1|E1]; cbn [orb]; [reflexivity|].
    destruct (Z.ltb_spec Py.maxsize stop) as [E2|E2]; [lia|]. cbn [orb].
    destruct (Z.ltb_spec stop (- Py.maxsize - 1)) as [E3|E3]; [reflexivity|].
    destruct (Z.ltb_spec stop (-1)) as [E4|E4]; [|lia].
    now rewrite !orb_true_r. }
  split; [|exact Hall].
  destruct (map_result do_entry (blocks content)) as [subs|e] eqn:Hm.
  - eexists. now apply (Hall subs).
  - exists e. unfold read_subs. rewrite Hr; cbn [bind]. now rewrite Hm.
Qed.

Lemma read_subs_skip_last_too_large_witness :
  (exists e,
     read_subs (fun _ => Ok ("1 00:00:01,000 --> 00:00:02,000 hi"))
               (mkInput "a.srt" 0 3) = Raise e)
  /\ (forall subs,
        map_result do_entry (blocks "1 00:00:01,000 --> 00:00:02,000 hi")
          = Ok subs ->
        Z.of_nat (List.length subs) - 3 < 0
        /\ read_subs (fun _ => Ok ("1 00:00:01,000 --> 00:00:02,000 hi"))
                     (mkInput "a.srt" 0 3)
           = Raise (if (Z.of_nat (List.length subs) - 3 =? -1)
                       || (Z.of_nat (List.length subs) - 3 <? - Py.maxsize - 1)
                    then Py.stop_error else Py.indices_error)).
Proof.
  apply (read_subs_skip_last_too_large
           (fun _ => Ok ("1 00:00:01,000 --> 00:00:02,000 hi"))
           (mkInput "a.srt" 0 3)
           "1 00:00:01,000 --> 00:00:02,000 hi").
  - reflexivity.
  - vm_compute. reflexivity.
Defined.

Lemma unpack_error_not_arrow (expected got : nat) :
  not_arrow_error (Py.unpack_error expected got).
Proof.
  intro idx. unfold Py.unpack_error, arrow_error.
  destruct (got <? expected)%nat; cbn; discriminate.
Qed.

Lemma int_raise (s : string) (e : exn) :
  Py.int s = Raise e -> not_arrow_error e.
Proof.
  unfold Py.int.
  destruct (match Py.rstrip (Py.lstrip s) with
            | String "-" r => (true, r)
            | String "+" r => (false, r)
            | _ => (false, Py.rstrip (Py.lstrip s))
            end) as [neg body].
  destruct (Py.int_body 0 false body); intros H idx; inversion H; subst.
  unfold Py.int_error, arrow_error; cbn; discriminate.
Qed.

Lemma map_int_raise (l : list string) (e : exn) :
  map_result Py.int l = Raise e -> not_arrow_error e.
Proof.
  induction l as [|s l IH]; cbn; [discriminate|].
  destruct (Py.int s) as [v|e'] eqn:E; cbn.
  - destruct (map_result Py.int l); cbn; [discriminate|].
    intro H; inversion H; subst. now apply IH.
  - intro H; inversion H; subst. now apply (int_raise s).
Qed.

Lemma srt_timecode_to_msecs_raise (tc : string) (e : exn) :
  srt_timecode_to_msecs tc = Raise e -> not_arrow_error e.
Proof.
  unfold srt_timecode_to_msecs.
  destruct (Py.split "," tc) as [|hms [|msec [|x l]]];
    try (intro H; inversion H; subst; apply unpack_error_not_arrow).
  destruct (Py.int msec) as [v|e'] eqn:E; cbn [bind].
  - destruct (map_result Py.int (Py.split ":" hms)) as [toks|e'] eqn:E';
      cbn [bind].
    + destruct toks as [|h [|m [|s [|y toks]]]];
        intro H; inversion H; subst; apply unpack_error_not_arrow.
    + intro H; inversion H; subst. now apply (map_int_raise _ _ E').
  - intro H; inversion H; subst. now apply (int_raise msec).
Qed.

Lemma Raise_inj {A : Type} (e e' : exn) :
  @Raise A e = Raise e' -> e = e'.
Proof. intro H; now inversion H. Qed.

Lemma index_from_raise (s : string) (c : ascii) :
  forall z e, Py.index_from z s c = Raise e ->
              e = ValueError "substring not found".
Proof.
  induction s as [|d s IH]; cbn; intros z e H.
  - now inversion H.
  - destruct (Ascii.eqb d c); [discriminate | eauto].
Qed.

Lemma do_entry_five (token idx b arrow e t : string) :
  Py.re_split_space token 4 = [idx; b; arrow; e; t] ->
  do_entry token =
  (pos <- Py.index token ":" ;;
   if negb (arrow =? "-->")%string then Raise (arrow_error idx)
   else
     b' <- srt_timecode_to_msecs b ;;
     e' <- srt_timecode_to_msecs e ;;
     Ok (mkSubtitleEntry b' e' t)).
Proof. intro H. unfold do_entry. now rewrite H. Qed.

Lemma do_entry_raise_arrow (token idx : string) :
  do_entry token = Raise (arrow_error idx) ->
  exists arrow, third_token token = Some arrow /\ arrow <> "-->".
Proof.
  unfold do_entry, third_token.
  destruct (Py.index token ":") as [pos|e] eqn:Ei; cbn [bind].
  2: { intro H. apply Raise_inj in H. subst e.
       apply index_from_raise in Ei. discriminate. }
  destruct (Py.re_split_space token 4) as [|i [|b [|a [|e [|t [|x l]]]]]] eqn:Es;
    try (intro H; exfalso; apply Raise_inj in H;
         exact (unpack_error_not_arrow 5 _ idx H)).
  destruct (String.eqb_spec a "-->") as [->|Hne]; cbn [negb].
  - intro H. exfalso.
    destruct (srt_timecode_to_msecs b) as [b'|eb] eqn:Eb; cbn [bind] in H.
    + destruct (srt_timecode_to_msecs e) as [e'|ee] eqn:Ee; cbn [bind] in H;
        [discriminate|].
      inversion H; subst. exact (srt_timecode_to_msecs_raise _ _ Ee idx eq_refl).
    + inversion H; subst. exact (srt_timecode_to_msecs_raise _ _ Eb idx eq_refl).
  - intros _. exists a. split; [reflexivity | assumption].
Qed.

Lemma map_result_first_raise {A B : Type} (f : A -> result B)
  (before after : list A) (a : A) (parsed : list B) (e : exn) :
  map_result f before = Ok parsed -> f a = Raise e ->
  map_result f (before ++ a :: after) = Raise e.
Proof.
  revert parsed. induction before as [|x before IH]; intros parsed Hb Ha;
    cbn [app map_result].
  - now rewrite Ha.
  - cbn [map_result] in Hb.
    destruct (f x) as [y|e']; cbn [bind] in *; [|discriminate].
    destruct (map_result f before) as [ys|e']; cbn [bind] in Hb; [|discriminate].
    now rewrite (IH ys eq_refl Ha).
Qed.

Lemma re_split_space_pieces (s : string) :
  forall k, (List.length (Py.re_split_space s k) <= S k)%nat.
Proof.
  unfold Py.re_split_space.
  induction s as [|c s IH]; intro k; cbn [Py.re_split_space_aux].
  - cbn. lia.
  - destruct k as [|k]; [cbn; lia|].
    destruct (Py.re_space c).
    + specialize (IH k).
      destruct (Py.re_split_space_aux k s) as [p ps]. cbn in *. lia.
    + specialize (IH (S k)).
      destruct (Py.re_split_space_aux (S k) s) as [p ps]. cbn in *. lia.
Qed.

Lemma prefix_append (n b : string) : String.prefix n (n ++ b) = true.
Proof.
  induction n as [|c n IH]; cbn [append String.prefix].
  - now destruct b.
  - destruct (ascii_dec c c) as [_|Hne]; [exact IH | congruence].
Qed.

Lemma contains_append (a n b : string) : Py.contains (a ++ n ++ b) n = true.
Proof.
  induction a as [|c a IH]; cbn [append].
  - assert (E : Py.contains (n ++ b) n
                = String.prefix n (n ++ b)
                  || match (n ++ b)%string with
                     | EmptyString => false
                     | String _ hay' => Py.contains hay' n
                     end) by (destruct (n ++ b)%string; reflexivity).
    now rewrite E, prefix_append.
  - cbn [Py.contains]. rewrite IH. apply orb_true_r.
Qed.

(** C7 as amended: a block whose third piece is not the arrow makes
    [_do_entry] raise, and so [read_subs] whenever the file holds the block.
    The error of the block is [substring not found] when it has no colon,
    else the unpacking error when it has fewer than five pieces, else the
    arrow error, whose message holds the declared index.  [read_subs] raises
    the error of the first block that fails, so it names the declared index
    of a block with a colon and five pieces when every earlier block parses.
    A block whose third piece is the arrow never raises the arrow error. *)
Theorem arrow_check (token arrow : string) :
  third_token token = Some arrow ->
  (arrow <> "-->" ->
   (Py.index token ":" = Raise (ValueError "substring not found")
    /\ do_entry token = Raise (ValueError "substring not found"))
   \/ (exists pos,
         Py.index token ":" = Ok pos
         /\ (List.length (Py.re_split_space token 4) < 5)%nat
         /\ do_entry token
            = Raise (Py.unpack_error 5
                       (List.length (Py.re_split_space token 4))))
   \/ (exists pos idx b e t,
         Py.index token ":" = Ok pos
         /\ Py.re_split_space token 4 = [idx; b; arrow; e; t]
         /\ do_entry token = Raise (arrow_error idx)
         /\ Py.contains ("at index " ++ idx ++ ": expected '-->'") idx = true))
  /\ (arrow <> "-->" ->
      forall (read_text : string -> result string) (inp : Input) content,
        read_text (filename inp) = Ok content ->
        In token (blocks content) ->
        exists e, read_subs read_text inp = Raise e)
  /\ (arrow <> "-->" ->
      forall (read_text : string -> result string) (inp : Input) content
             before after parsed,
        read_text (filename inp) = Ok content ->
        blocks content = (before ++ token :: after)%list ->
        map_result do_entry before = Ok parsed ->
        exists e, do_entry token = Raise e
                  /\ read_subs read_text inp = Raise e)
  /\ (arrow <> "-->" ->
      forall (read_text : string -> result string) (inp : Input) content
             before after parsed pos idx b e t,
        read_text (filename inp) = Ok content ->
        blocks content = (before ++ token :: after)%list ->
        map_result do_entry before = Ok parsed ->
        Py.index token ":" = Ok pos ->
        Py.re_split_space token 4 = [idx; b; arrow; e; t] ->
        read_subs read_text inp
        = Raise (ValueError ("at index " ++ idx ++ ": expected '-->'"))
        /\ Py.contains ("at index " ++ idx ++ ": expected '-->'") idx = true)
  /\ (arrow = "-->" -> forall idx, do_entry token <> Raise (arrow_error idx)).
Proof.
  intro Ht.
  assert (Hfive : arrow <> "-->" ->
            forall pos idx b e t,
              Py.index token ":" = Ok pos ->
              Py.re_split_space token 4 = [idx; b; arrow; e; t] ->
              do_entry token = Raise (arrow_error idx)).
  { intros Hne pos idx b e t Hi Hs.
    rewrite (do_entry_five _ _ _ _ _ _ Hs), Hi; cbn [bind].
    destruct (String.eqb_spec arrow "-->") as [->|_]; [congruence|reflexivity]. }
  assert (Hcases : arrow <> "-->" ->
   (Py.index token ":" = Raise (ValueError "substring not found")
    /\ do_entry token = Raise (ValueError "substring not found"))
   \/ (exists pos,
         Py.index token ":" = Ok pos
         /\ (List.length (Py.re_split_space token 4) < 5)%nat
         /\ do_entry token
            = Raise (Py.unpack_error 5
                       (List.length (Py.re_split_space token 4))))
   \/ (exists pos idx b e t,
         Py.index token ":" = Ok pos
         /\ Py.re_split_space token 4 = [idx; b; arrow; e; t]
         /\ do_entry token = Raise (arrow_error idx)
         /\ Py.contains ("at index " ++ idx ++ ": expected '-->'") idx = true)).
  { intro Hne.
    destruct (Py.index token ":") as [pos|e] eqn:Hi.
    - right.
      pose proof (re_split_space_pieces token 4) as Hlen.
      unfold third_token in Ht.
      destruct (Py.re_split_space token 4) as [|i [|b [|a [|e [|t [|x l]]]]]]
        eqn:Hs; cbn [List.length] in Hlen; try lia;
        try (left; exists pos; repeat split;
             [cbn; lia | unfold do_entry; rewrite Hi, Hs; reflexivity]).
      cbn in Ht. injection Ht as ->.
      right. exists pos, i, b, e, t. repeat split.
      + unfold do_entry. rewrite Hi, Hs. cbn [bind].
        destruct (String.eqb_spec arrow "-->") as [->|_];
          [congruence|reflexivity].
      + apply contains_append.
    - left. pose proof (index_from_raise _ _ _ _ Hi) as ->.
      split; [reflexivity|]. unfold do_entry. now rewrite Hi. }
  assert (Hraise : arrow <> "-->" -> exists e, do_entry token = Raise e).
  { intro Hne.
    destruct (Hcases Hne)
      as [[_ H]|[(pos & _ & _ & H)|(pos & i & b & e & t & _ & _ & H & _)]];
      eexists; exact H. }
  split; [exact Hcases|]. split; [|split; [|split]].
  - intros Hne read_text inp content Hr Hin.
    destruct (Hraise Hne) as [e He].
    destruct (map_result_raise_in do_entry _ token e Hin He) as [e' He'].
    exists e'. unfold read_subs. rewrite Hr; cbn [bind]. now rewrite He'.
  - intros Hne read_text inp content before after parsed Hr Hb Hp.
    destruct (Hraise Hne) as [e He]. exists e. split; [exact He|].
    unfold read_subs. rewrite Hr; cbn [bind]. rewrite Hb.
    now rewrite (map_result_first_raise _ _ after _ _ _ Hp He).
  - intros Hne read_text inp content before after parsed pos idx b e t
      Hr Hb Hp Hi Hs.
    split; [|apply contains_append].
    unfold read_subs. rewrite Hr; cbn [bind]. rewrite Hb.
    now rewrite (map_result_first_raise _ _ after _ _ _ Hp
                   (Hfive Hne _ _ _ _ _ Hi Hs)).
  - intros -> idx H.
    destruct (do_entry_raise_arrow token idx H) as (a & Ha & Hne).
    congruence.
Qed.

Lemma arrow_check_witness :
  read_subs
    (fun _ => Ok ("1 00:00:01,000 --> 00:00:02,000 hi" ++ Py.LF ++ Py.LF
                  ++ "2 00:00:03,000 -> 00:00:04,000 yo")%string)
    (mkInput "a.srt" 0 0)
  = Raise (ValueError ("at index " ++ "2" ++ ": expected '-->'"))
  /\ Py.contains ("at index " ++ "2" ++ ": expected '-->'") "2" = true.
Proof.
  apply (proj1 (proj2 (proj2 (proj2
           (arrow_check "2 00:00:03,000 -> 00:00:04,000 yo" "->" eq_refl))))
           ltac:(discriminate)
           (fun _ => Ok ("1 00:00:01,000 --> 00:00:02,000 hi" ++ Py.LF ++ Py.LF
                         ++ "2 00:00:03,000 -> 00:00:04,000 yo")%string)
           (mkInput "a.srt" 0 0)
           ("1 00:00:01,000 --> 00:00:02,000 hi" ++ Py.LF ++ Py.LF
            ++ "2 00:00:03,000 -> 00:00:04,000 yo")%string
           ["1 00:00:01,000 --> 00:00:02,000 hi"] []
           [mkSubtitleEntry 1000 2000 "hi"]
           4 "2" "00:00:03,000" "00:00:04,000" "yo");
    reflexivity.
Defined.

(** C7 as stated fails: the third piece of the block [7 8 9] is not the
    arrow, and the exception raised does not hold the index 7. *)
Lemma arrow_check_counterexample :
  third_token "7 8 9" = Some "9"
  /\ read_subs (fun _ => Ok "7 8 9") (mkInput "a.srt" 0 0)
     = Raise (ValueError "substring not found")
  /\ Py.contains "substring not found" "7" = false.
Proof. repeat split. Qed.

(** ** Decimal digits *)

Lemma append_assoc (a b c : string) : ((a ++ b) ++ c = a ++ (b ++ c))%string.
Proof. induction a as [|x a IH]; cbn; [reflexivity | now rewrite IH]. Qed.

Lemma append_nil_r (a : string) : (a ++ "")%string = a.
Proof. induction a as [|x a IH]; cbn; [reflexivity | now rewrite IH]. Qed.

Lemma length_append (a b : string) :
  String.length (a ++ b) = (String.length a + String.length b)%nat.
Proof. induction a as [|x a IH]; cbn; [reflexivity | now rewrite IH]. Qed.

Lemma str_all_append (p : ascii -> bool) (a b : string) :
  str_all p (a ++ b) = str_all p a && str_all p b.
Proof.
  induction a as [|x a IH]; cbn; [reflexivity|].
  now rewrite IH, andb_assoc.
Qed.

Lemma is_digit_range (c : ascii) :
  Py.is_digit c = true -> 0 <= Py.digit_val c < 10.
Proof.
  unfold Py.is_digit, Py.digit_val. intro H.
  apply andb_true_iff in H. destruct H as [H1 H2].
  apply N.leb_le in H1, H2. lia.
Qed.

Lemma digit_char_val (c : ascii) :
  Py.is_digit c = true -> Py.digit_char (Py.digit_val c) = c.
Proof.
  intro H. pose proof (is_digit_range c H) as Hr.
  unfold Py.digit_char, Py.digit_val, Py.code in *.
  replace (48 + (Z.of_N (N_of_ascii c) - 48)) with (Z.of_N (N_of_ascii c)) by lia.
  rewrite N2Z.id. apply ascii_N_embedding.
Qed.

Lemma digit_val_char (d : Z) :
  0 <= d < 10 ->
  Py.digit_val (Py.digit_char d) = d /\ Py.is_digit (Py.digit_char d) = true.
Proof.
  intro H.
  assert (E : d = 0 \/ d = 1 \/ d = 2 \/ d = 3 \/ d = 4 \/ d = 5 \/ d = 6
              \/ d = 7 \/ d = 8 \/ d = 9) by lia.
  repeat (destruct E as [->|E]; [split; reflexivity|]).
  subst d; split; reflexivity.
Qed.

Lemma digit_val_inj (c d : ascii) :
  Py.is_digit c = true -> Py.is_digit d = true ->
  Py.digit_val c = Py.digit_val d -> c = d.
Proof.
  intros Hc Hd E.
  rewrite <- (digit_char_val c Hc), <- (digit_char_val d Hd). now rewrite E.
Qed.

Lemma digits_value_from_app (a : Z) (s t : string) :
  digits_value_from a (s ++ t) = digits_value_from (digits_value_from a s) t.
Proof. revert a; induction s as [|c s IH]; intro a; cbn; [reflexivity | apply IH]. Qed.

Lemma digits_value_from_split (s : string) :
  forall a,
    digits_value_from a s
    = a * 10 ^ Z.of_nat (String.length s) + digits_value s.
Proof.
  unfold digits_value.
  induction s as [|c s IH]; intro a; cbn [digits_value_from String.length].
  - cbn. lia.
  - rewrite (IH (a * 10 + Py.digit_val c)), (IH (0 * 10 + Py.digit_val c)).
    rewrite Nat2Z.inj_succ, Z.pow_succ_r by lia. ring.
Qed.

Lemma digits_value_bound (s : string) :
  str_all Py.is_digit s = true ->
  0 <= digits_value s < 10 ^ Z.of_nat (String.length s).
Proof.
  unfold digits_value.
  induction s as [|c s IH]; cbn [str_all digits_value_from String.length].
  - intros _. cbn. lia.
  - intro H. apply andb_true_iff in H. destruct H as [Hc Hs].
    pose proof (is_digit_range c Hc). specialize (IH Hs).
    rewrite digits_value_from_split. unfold digits_value.
    rewrite Nat2Z.inj_succ, Z.pow_succ_r by lia. nia.
Qed.

(** Two strings of digits of one length that write one number are equal. *)
Lemma digits_value_inj (s : string) :
  forall t,
    str_all Py.is_digit s = true -> str_all Py.is_digit t = true ->
    String.length s = String.length t ->
    digits_value s = digits_value t -> s = t.
Proof.
  induction s as [|c s IH]; intros [|d t]; cbn [str_all String.length];
    intros Hs Ht Hl Hv; try discriminate; [reflexivity|].
  apply andb_true_iff in Hs, Ht. destruct Hs as [Hc Hs], Ht as [Hd Ht].
  injection Hl as Hl.
  unfold digits_value in Hv. cbn [digits_value_from] in Hv.
  rewrite (digits_value_from_split s), (digits_value_from_split t) in Hv.
  rewrite <- Hl in Hv.
  pose proof (digits_value_bound s Hs) as Bs.
  pose proof (digits_value_bound t Ht) as Bt. rewrite <- Hl in Bt.
  pose proof (is_digit_range c Hc). pose proof (is_digit_range d Hd).
  remember (10 ^ Z.of_nat (String.length s)) as P eqn:EP.
  remember (Py.digit_val c) as x eqn:Ex.
  remember (Py.digit_val d) as y eqn:Ey.
  assert (Ec : x = y).
  { destruct (Z.lt_trichotomy x y) as [L|[E|L]]; [exfalso|exact E|exfalso].
    - assert ((x + 1) * P <= y * P) by (apply Z.mul_le_mono_nonneg_r; lia). lia.
    - assert ((y + 1) * P <= x * P) by (apply Z.mul_le_mono_nonneg_r; lia). lia. }
  assert (Ev : digits_value s = digits_value t) by (subst y; lia).
  subst x y.
  f_equal; [now apply digit_val_inj | now apply IH].
Qed.

(** [digits_aux] with enough fuel writes its number in front of [acc], in
    digits and without a leading zero. *)
Lemma digits_aux_spec (fuel : nat) :
  forall n acc,
    0 <= n < 10 ^ (Z.of_nat fuel + 1) ->
    exists s,
      Py.digits_aux fuel n acc = (s ++ acc)%string
      /\ str_all Py.is_digit s = true
      /\ digits_value s = n
      /\ (1 <= String.length s)%nat
      /\ (String.length s = 1%nat
          \/ 10 ^ (Z.of_nat (String.length s) - 1) <= n).
Proof.
  assert (Hone : forall n acc, 0 <= n < 10 ->
            exists s,
              String (Py.digit_char (n mod 10)) acc = (s ++ acc)%string
              /\ str_all Py.is_digit s = true
              /\ digits_value s = n
              /\ (1 <= String.length s)%nat
              /\ (String.length s = 1%nat
                  \/ 10 ^ (Z.of_nat (String.length s) - 1) <= n)).
  { intros n acc Hn. exists (String (Py.digit_char (n mod 10)) "").
    rewrite Z.mod_small by lia.
    destruct (digit_val_char n Hn) as [Hv Hd].
    unfold digits_value. cbn. rewrite Hd, Hv.
    repeat split; auto. }
  induction fuel as [|fuel IH]; intros n acc Hn; cbn [Py.digits_aux].
  - apply Hone. cbn in Hn. lia.
  - destruct (Z.eqb_spec (n / 10) 0) as [E|E].
    + apply Hone. apply Z.div_small_iff in E; lia.
    + assert (Hq : 0 <= n / 10 < 10 ^ (Z.of_nat fuel + 1)).
      { split; [apply Z.div_pos; lia|].
        apply Z.div_lt_upper_bound; [lia|].
        rewrite <- Z.pow_succ_r by lia.
        replace (Z.succ (Z.of_nat fuel + 1)) with (Z.of_nat (S fuel) + 1) by lia.
        lia. }
      destruct (IH (n / 10) (String (Py.digit_char (n mod 10)) acc) Hq)
        as (s & Hs & Hd & Hv & Hl & Ht).
      assert (Hm : 0 <= n mod 10 < 10) by (apply Z.mod_pos_bound; lia).
      destruct (digit_val_char (n mod 10) Hm) as [Hv' Hd'].
      exists (s ++ String (Py.digit_char (n mod 10)) "")%string.
      rewrite Hs, append_assoc, str_all_append, length_append. cbn [append].
      unfold digits_value in *. rewrite digits_value_from_app, Hv.
      cbn [str_all digits_value_from String.length]. rewrite Hd, Hd', Hv'.
      pose proof (Z.div_mod n 10 ltac:(lia)) as Hdm.
      repeat split; try reflexivity; try lia.
      right.
      replace (Z.of_nat (String.length s + 1) - 1)
        with (Z.succ (Z.of_nat (String.length s) - 1)) by lia.
      rewrite Z.pow_succ_r by lia.
      destruct Ht as [Ht|Ht].
      * rewrite Ht. cbn. lia.
      * lia.
Qed.

Lemma log2_fuel (n : Z) :
  0 <= n -> n < 10 ^ (Z.of_nat (Z.to_nat (Z.log2 n)) + 1).
Proof.
  intro Hn. rewrite Z2Nat.id by apply Z.log2_nonneg.
  destruct (Z.eq_dec n 0) as [->|Hz]; [cbn; lia|].
  destruct (Z.log2_spec n ltac:(lia)) as [_ Hu].
  apply Z.lt_le_trans with (1 := Hu).
  apply Z.pow_le_mono_l. pose proof (Z.log2_nonneg n). lia.
Qed.

Lemma digits_spec (n : Z) :
  0 <= n ->
  str_all Py.is_digit (Py.digits n) = true
  /\ digits_value (Py.digits n) = n
  /\ (1 <= String.length (Py.digits n))%nat
  /\ (String.length (Py.digits n) = 1%nat
      \/ 10 ^ (Z.of_nat (String.length (Py.digits n)) - 1) <= n).
Proof.
  intro Hn. unfold Py.digits.
  destruct (digits_aux_spec (Z.to_nat (Z.log2 n)) n ""
              (conj Hn (log2_fuel n Hn))) as (s & Hs & H).
  rewrite Hs, append_nil_r. exact H.
Qed.

Lemma zeros_spec (k : nat) :
  str_all Py.is_digit (Py.zeros k) = true
  /\ String.length (Py.zeros k) = k
  /\ forall a, digits_value_from a (Py.zeros k) = a * 10 ^ Z.of_nat k.
Proof.
  induction k as [|k (Hd & Hl & Hv)]; cbn [Py.zeros str_all String.length].
  - repeat split. intro a. cbn. lia.
  - rewrite Hd, Hl. repeat split. intro a. cbn [digits_value_from].
    rewrite Hv, Nat2Z.inj_succ, Z.pow_succ_r by lia.
    change (Py.digit_val "0") with 0. ring.
Qed.

Lemma zfill_spec (w : nat) (s : string) :
  str_all Py.is_digit s = true ->
  str_all Py.is_digit (Py.zfill w s) = true
  /\ digits_value (Py.zfill w s) = digits_value s
  /\ String.length (Py.zfill w s) = Nat.max w (String.length s).
Proof.
  intro Hs. unfold Py.zfill.
  destruct (zeros_spec (w - String.length s)) as (Hd & Hl & Hv).
  rewrite str_all_append, length_append, Hd, Hl, Hs.
  unfold digits_value. rewrite digits_value_from_app, Hv.
  repeat split; try reflexivity; lia.
Qed.

Lemma format0_nonneg (w : nat) (n : Z) :
  0 <= n -> Py.format0 w n = Py.zfill w (Py.digits n).
Proof.
  intro Hn. unfold Py.format0.
  destruct (Z.ltb_spec n 0); [lia | reflexivity].
Qed.

(** A zero-padded field of a non-negative number is a non-empty string of
    digits that writes the number. *)
Lemma format0_field (w : nat) (n : Z) :
  0 <= n ->
  str_all Py.is_digit (Py.format0 w n) = true
  /\ digits_value (Py.format0 w n) = n
  /\ (1 <= String.length (Py.format0 w n))%nat.
Proof.
  intro Hn. rewrite (format0_nonneg w n Hn).
  destruct (digits_spec n Hn) as (Hd & Hv & Hl & _).
  destruct (zfill_spec w (Py.digits n) Hd) as (Hd' & Hv' & Hl').
  rewrite Hd', Hv', Hl', Hv. repeat split. lia.
Qed.

(** Padding the number of a string of digits to the width of the string
    gives the string back. *)
Lemma format0_digits_value (ds : string) :
  str_all Py.is_digit ds = true ->
  (1 <= String.length ds)%nat ->
  Py.format0 (String.length ds) (digits_value ds) = ds.
Proof.
  intros Hd Hl.
  pose proof (digits_value_bound ds Hd) as Hb.
  rewrite format0_nonneg by lia.
  destruct (digits_spec (digits_value ds) ltac:(lia)) as (Hd' & Hv' & Hl' & Ht).
  destruct (zfill_spec (String.length ds) _ Hd') as (Hzd & Hzv & Hzl).
  apply digits_value_inj; try assumption; [|congruence].
  rewrite Hzl. apply Nat.max_l.
  destruct Ht as [Ht|Ht]; [lia|].
  assert (Hlt : 10 ^ (Z.of_nat (String.length (Py.digits (digits_value ds))) - 1)
                < 10 ^ Z.of_nat (String.length ds)) by lia.
  apply Z.pow_lt_mono_r_iff in Hlt; lia.
Qed.

(** ** [int] and [split] on the fields of a timecode *)

Lemma is_digit_cases (c : ascii) :
  Py.is_digit c = true ->
  In c ["0"; "1"; "2"; "3"; "4"; "5"; "6"; "7"; "8"; "9"]%char.
Proof.
  intro H. rewrite <- (digit_char_val c H).
  pose proof (is_digit_range c H) as Hr.
  remember (Py.digit_val c) as d eqn:Ed. clear Ed H.
  assert (E : d = 0 \/ d = 1 \/ d = 2 \/ d = 3 \/ d = 4 \/ d = 5 \/ d = 6
              \/ d = 7 \/ d = 8 \/ d = 9) by lia.
  cbn [In].
  repeat (destruct E as [->|E]; [tauto|]). subst d; tauto.
Qed.

Lemma is_digit_not_space (c : ascii) :
  Py.is_digit c = true -> Py.int_space c = false.
Proof.
  intro H. apply is_digit_cases in H. cbn [In] in H.
  repeat (destruct H as [<-|H]; [reflexivity|]). contradiction.
Qed.

Lemma is_digit_neq (x c : ascii) :
  Py.is_digit x = false -> Py.is_digit c = true -> negb (Ascii.eqb c x) = true.
Proof.
  intros Hx Hc. destruct (Ascii.eqb_spec c x) as [->|_]; [congruence|reflexivity].
Qed.

Lemma str_all_impl (p q : ascii -> bool) (s : string) :
  (forall c, p c = true -> q c = true) ->
  str_all p s = true -> str_all q s = true.
Proof.
  intro Hpq. induction s as [|c s IH]; cbn; [reflexivity|].
  intro H. apply andb_true_iff in H. destruct H as [Hc Hs].
  now rewrite (Hpq c Hc), (IH Hs).
Qed.

Lemma lstrip_digits (s : string) :
  str_all Py.is_digit s = true -> Py.lstrip s = s.
Proof.
  destruct s as [|c s]; cbn; [reflexivity|].
  intro H. apply andb_true_iff in H. destruct H as [Hc _].
  now rewrite (is_digit_not_space c Hc).
Qed.

Lemma rstrip_digits (s : string) :
  str_all Py.is_digit s = true -> Py.rstrip s = s.
Proof.
  induction s as [|c s IH]; cbn; [reflexivity|].
  intro H. apply andb_true_iff in H. destruct H as [Hc Hs].
  now rewrite (is_digit_not_space c Hc), (IH Hs).
Qed.

Lemma int_body_digits (s : string) :
  forall a, str_all Py.is_digit s = true ->
            Py.int_body a true s = Some (digits_value_from a s).
Proof.
  induction s as [|c s IH]; intros a; cbn; [reflexivity|].
  intro H. apply andb_true_iff in H. destruct H as [Hc Hs].
  rewrite Hc. now apply IH.
Qed.

(** [int] reads a non-empty string of digits as the number it writes. *)
Lemma int_digits (s : string) :
  str_all Py.is_digit s = true -> (1 <= String.length s)%nat ->
  Py.int s = Ok (digits_value s).
Proof.
  intros Hd Hl. unfold Py.int.
  rewrite (lstrip_digits s Hd), (rstrip_digits s Hd).
  destruct s as [|c s]; [cbn in Hl; lia|].
  cbn [str_all] in Hd. apply andb_true_iff in Hd. destruct Hd as [Hc Hs].
  assert (Hb : Py.int_body 0 false (String c s) = Some (digits_value (String c s))).
  { cbn [Py.int_body]. rewrite Hc. now apply int_body_digits. }
  pose proof (is_digit_cases c Hc) as Hin. cbn [In] in Hin.
  repeat (destruct Hin as [<-|Hin]; [now rewrite Hb|]). contradiction.
Qed.

Lemma prefix_one (x c : ascii) (s : string) :
  String.prefix (String x "") (String c s) = Ascii.eqb c x.
Proof.
  cbn. destruct (ascii_dec x c) as [->|Hne].
  - rewrite Ascii.eqb_refl. now destruct s.
  - symmetry. apply Ascii.eqb_neq. congruence.
Qed.

Section SplitOne.

Variable x : ascii.

Abbreviation other := (fun c : ascii => negb (Ascii.eqb c x)).

Lemma split_aux_nosep (a : string) :
  str_all other a = true -> Py.split_aux (String x "") 0 a = (a, []).
Proof.
  induction a as [|c a IH]; [reflexivity|].
  cbn [str_all]. intro H. apply andb_true_iff in H. destruct H as [Hc Ha].
  cbn [Py.split_aux]. rewrite prefix_one.
  cbv beta in Hc. apply negb_true_iff in Hc. rewrite Hc, (IH Ha).
  reflexivity.
Qed.

Lemma split_aux_sep (a b : string) :
  str_all other a = true ->
  Py.split_aux (String x "") 0 (a ++ String x b)
  = (a, Py.split (String x "") b).
Proof.
  induction a as [|c a IH].
  - intros _. cbn [append Py.split_aux]. rewrite prefix_one, Ascii.eqb_refl.
    cbn [String.length Nat.sub]. unfold Py.split.
    now destruct (Py.split_aux (String x "") 0 b).
  - cbn [str_all]. intro H. apply andb_true_iff in H. destruct H as [Hc Ha].
    cbn [append Py.split_aux]. rewrite prefix_one.
    cbv beta in Hc. apply negb_true_iff in Hc. rewrite Hc, (IH Ha).
    reflexivity.
Qed.

Lemma split_nosep (a : string) :
  str_all other a = true -> Py.split (String x "") a = [a].
Proof. intro H. unfold Py.split. now rewrite (split_aux_nosep a H). Qed.

Lemma split_sep (a b : string) :
  str_all other a = true ->
  Py.split (String x "") (a ++ String x b) = a :: Py.split (String x "") b.
Proof. intro H. unfold Py.split at 1. now rewrite (split_aux_sep a b H). Qed.

End SplitOne.

Lemma digits_no_sep (x : ascii) (s : string) :
  Py.is_digit x = false ->
  str_all Py.is_digit s = true ->
  str_all (fun c => negb (Ascii.eqb c x)) s = true.
Proof.
  intros Hx. apply str_all_impl. intros c Hc. now apply is_digit_neq.
Qed.

(** The number read from four fields of digits set around two colons and a
    comma. *)
Lemma parse_fields (H M S F : string) :
  str_all Py.is_digit H = true -> (1 <= String.length H)%nat ->
  str_all Py.is_digit M = true -> (1 <= String.length M)%nat ->
  str_all Py.is_digit S = true -> (1 <= String.length S)%nat ->
  str_all Py.is_digit F = true -> (1 <= String.length F)%nat ->
  srt_timecode_to_msecs (H ++ ":" ++ M ++ ":" ++ S ++ "," ++ F)
  = Ok (digits_value F + digits_value S * 1000 + digits_value M * 1000 * 60
        + digits_value H * 1000 * 60 * 60).
Proof.
  intros HdH HlH HdM HlM HdS HlS HdF HlF.
  assert (E : (H ++ ":" ++ M ++ ":" ++ S ++ "," ++ F
               = (H ++ ":" ++ M ++ ":" ++ S) ++ String "," F)%string).
  { now rewrite !append_assoc. }
  unfold srt_timecode_to_msecs. rewrite E.
  rewrite split_sep.
  2: { rewrite !str_all_append. cbn [str_all append].
       rewrite !(digits_no_sep "," _ eq_refl) by assumption. reflexivity. }
  rewrite split_nosep by (now apply digits_no_sep).
  rewrite (int_digits F HdF HlF). cbn [bind].
  change (":" ++ M ++ ":" ++ S)%string with (String ":" (M ++ String ":" S)).
  rewrite !split_sep, split_nosep by (now apply digits_no_sep).
  cbn [map_result].
  rewrite (int_digits H HdH HlH), (int_digits M HdM HlM), (int_digits S HdS HlS).
  reflexivity.
Qed.

(** ** Round trips of the codec *)

Lemma msecs_to_srt_timecode_fields (m : Z) :
  msecs_to_srt_timecode m
  = (Py.format0 2 (m / 1000 / 60 / 60) ++ ":"
     ++ Py.format0 2 ((m / 1000 / 60) mod 60) ++ ":"
     ++ Py.format0 2 ((m / 1000) mod 60) ++ ","
     ++ Py.format0 3 (m mod 1000))%string.
Proof. reflexivity. Qed.

Lemma well_formed_fields (s : string) :
  well_formed_timecode s = true ->
  exists H M S F,
    (s = H ++ ":" ++ M ++ ":" ++ S ++ "," ++ F)%string
    /\ (str_all Py.is_digit H = true /\ String.length H = 2%nat)
    /\ (str_all Py.is_digit M = true /\ String.length M = 2%nat)
    /\ (str_all Py.is_digit S = true /\ String.length S = 2%nat)
    /\ (str_all Py.is_digit F = true /\ String.length F = 3%nat)
    /\ hour_field s = digits_value H
    /\ minute_field s = digits_value M
    /\ second_field s = digits_value S.
Proof.
  unfold well_formed_timecode, hour_field, minute_field, second_field.
  do 12 (destruct s as [|? s]; [discriminate|]).
  destruct s; [|discriminate].
  cbn [String.length Nat.eqb substring andb].
  intro W.
  repeat match type of W with
         | (_ && _) = true => apply andb_true_iff in W; destruct W as [W ?]
         end.
  repeat match goal with
         | E : (String _ "" =? _)%string = true |- _ =>
             apply String.eqb_eq in E; injection E as ->
         end.
  do 4 eexists.
  split; [|repeat split; try eassumption; reflexivity].
  reflexivity.
Qed.

(** C6 as amended: reading the timecode written for a non-negative number
    of milliseconds gives the number back; and writing the number read from
    a timecode of the shape HH:MM:SS,mmm gives the timecode back when its
    minutes and its seconds are below 60. *)
Theorem timecode_round_trip :
  (forall m : Z,
      0 <= m -> srt_timecode_to_msecs (msecs_to_srt_timecode m) = Ok m)
  /\ (forall s : string,
        well_formed_timecode s = true ->
        minute_field s < 60 -> second_field s < 60 ->
        exists m,
          srt_timecode_to_msecs s = Ok m /\ msecs_to_srt_timecode m = s).
Proof.
  split.
  - intros m Hm. rewrite msecs_to_srt_timecode_fields.
    assert (H1 : 0 <= m / 1000) by (apply Z.div_pos; lia).
    assert (H2 : 0 <= m / 1000 / 60) by (apply Z.div_pos; lia).
    assert (H3 : 0 <= m / 1000 / 60 / 60) by (apply Z.div_pos; lia).
    assert (H4 : 0 <= (m / 1000 / 60) mod 60) by (apply Z.mod_pos_bound; lia).
    assert (H5 : 0 <= (m / 1000) mod 60) by (apply Z.mod_pos_bound; lia).
    assert (H6 : 0 <= m mod 1000) by (apply Z.mod_pos_bound; lia).
    destruct (format0_field 2 _ H3) as (Dh & Vh & Lh).
    destruct (format0_field 2 _ H4) as (Dm & Vm & Lm).
    destruct (format0_field 2 _ H5) as (Ds & Vs & Ls).
    destruct (format0_field 3 _ H6) as (Df & Vf & Lf).
    rewrite parse_fields by assumption.
    rewrite Vh, Vm, Vs, Vf. f_equal.
    pose proof (Z.div_mod m 1000 ltac:(lia)).
    pose proof (Z.div_mod (m / 1000) 60 ltac:(lia)).
    pose proof (Z.div_mod (m / 1000 / 60) 60 ltac:(lia)).
    lia.
  - intros s W Hmin Hsec.
    destruct (well_formed_fields s W)
      as (H & M & S & F & -> & [Dh Lh] & [Dm Lm] & [Ds Ls] & [Df Lf]
          & Eh & Em & Es).
    rewrite Em in Hmin. rewrite Es in Hsec.
    pose proof (digits_value_bound H Dh) as Bh.
    pose proof (digits_value_bound M Dm) as Bm.
    pose proof (digits_value_bound S Ds) as Bs.
    pose proof (digits_value_bound F Df) as Bf.
    rewrite Lf in Bf. change (10 ^ Z.of_nat 3) with 1000 in Bf.
    eexists. split; [apply parse_fields; try assumption; lia|].
    rewrite msecs_to_srt_timecode_fields.
    set (m := digits_value F + digits_value S * 1000
              + digits_value M * 1000 * 60 + digits_value H * 1000 * 60 * 60).
    assert (E1 : m mod 1000 = digits_value F)
      by (subst m; Z.div_mod_to_equations; lia).
    assert (E2 : (m / 1000) mod 60 = digits_value S)
      by (subst m; Z.div_mod_to_equations; lia).
    assert (E3 : (m / 1000 / 60) mod 60 = digits_value M)
      by (subst m; Z.div_mod_to_equations; lia).
    assert (E4 : m / 1000 / 60 / 60 = digits_value H)
      by (subst m; Z.div_mod_to_equations; lia).
    rewrite E1, E2, E3, E4.
    pose proof (format0_digits_value H Dh ltac:(lia)) as Fh.
    pose proof (format0_digits_value M Dm ltac:(lia)) as Fm.
    pose proof (format0_digits_value S Ds ltac:(lia)) as Fs.
    pose proof (format0_digits_value F Df ltac:(lia)) as Ff.
    rewrite Lh in Fh. rewrite Lm in Fm. rewrite Ls in Fs. rewrite Lf in Ff.
    now rewrite Fh, Fm, Fs, Ff.
Qed.

Lemma timecode_round_trip_witness :
  srt_timecode_to_msecs (msecs_to_srt_timecode 3723004) = Ok 3723004
  /\ exists m,
       srt_timecode_to_msecs "01:02:03,004" = Ok m
       /\ msecs_to_srt_timecode m = "01:02:03,004".
Proof.
  split.
  - apply (proj1 timecode_round_trip 3723004). lia.
  - apply (proj2 timecode_round_trip "01:02:03,004").
    + reflexivity.
    + vm_compute. reflexivity.
    + vm_compute. reflexivity.
Defined.

(** C6 as stated fails: [00:60:00,000] has the shape HH:MM:SS,mmm and an
    hour value below 100, is read as 3600000, and 3600000 is written
    [01:00:00,000]. *)
Lemma timecode_round_trip_counterexample :
  well_formed_timecode "00:60:00,000" = true
  /\ hour_field "00:60:00,000" < 100
  /\ srt_timecode_to_msecs "00:60:00,000" = Ok 3600000
  /\ msecs_to_srt_timecode 3600000 = "01:00:00,000"
  /\ msecs_to_srt_timecode 3600000 <> "00:60:00,000".
Proof.
  repeat split; try (vm_compute; reflexivity).
  vm_compute. discriminate.
Qed.

(** * Further properties *)

(** ** Overlap and merge, without the data model's precondition *)

(** X1: every entry overlaps itself, also one whose end is before its
    start. *)
Theorem has_overlap_refl (a : SubtitleEntry) : has_overlap a a = true.
Proof.
  unfold has_overlap.
  destruct (Z.leb_spec (start a) (start a)); [|lia].
  destruct (Z.geb_spec (end_ a) (end_ a)); [|lia].
  destruct (Z.geb_spec (end_ a) (start a)); cbn; [reflexivity|].
  destruct (Z.leb_spec (start a) (end_ a)); reflexivity.
Qed.

(** X2: two entries that meet the closed-interval test overlap for
    [has_overlap], whatever the order of the start and the end of each. *)
Theorem intersect_has_overlap (e1 e2 : SubtitleEntry) :
  start e1 <= end_ e2 -> start e2 <= end_ e1 -> has_overlap e1 e2 = true.
Proof.
  intros H1 H2. unfold has_overlap.
  repeat match goal with
         | |- context [?a <=? ?b] => destruct (Z.leb_spec a b)
         | |- context [?a >=? ?b] => destruct (Z.geb_spec a b)
         end; cbn; reflexivity || lia.
Qed.

Lemma intersect_has_overlap_witness :
  has_overlap (mkSubtitleEntry 5 1 "a") (mkSubtitleEntry 0 9 "b") = true.
Proof.
  apply (intersect_has_overlap
           (mkSubtitleEntry 5 1 "a") (mkSubtitleEntry 0 9 "b")); simpl; lia.
Defined.

(** X3: the interval of a merged entry holds the intervals of both inputs,
    is the same for both orders of the inputs, and the merged entry overlaps
    each input. *)
Theorem merge_entries_covers (e1 e2 : SubtitleEntry) :
  (start (merge_entries e1 e2) <= start e1
   /\ start (merge_entries e1 e2) <= start e2
   /\ end_ e1 <= end_ (merge_entries e1 e2)
   /\ end_ e2 <= end_ (merge_entries e1 e2))
  /\ (start (merge_entries e1 e2) = start (merge_entries e2 e1)
      /\ end_ (merge_entries e1 e2) = end_ (merge_entries e2 e1))
  /\ has_overlap (merge_entries e1 e2) e1 = true
  /\ has_overlap (merge_entries e1 e2) e2 = true.
Proof.
  unfold merge_entries, has_overlap; cbn [start end_].
  repeat split; try lia;
    repeat match goal with
           | |- context [?a <=? ?b] => destruct (Z.leb_spec a b)
           | |- context [?a >=? ?b] => destruct (Z.geb_spec a b)
           end; cbn; reflexivity || lia.
Qed.

Lemma count_append (a b : string) (c : ascii) :
  Py.count (a ++ b) c = Py.count a c + Py.count b c.
Proof.
  induction a as [|d a IH]; cbn [append Py.count]; [reflexivity|].
  rewrite IH. lia.
Qed.

Lemma count_nonneg (a : string) (c : ascii) : 0 <= Py.count a c.
Proof.
  induction a as [|d a IH]; cbn [Py.count]; [lia|].
  destruct (Ascii.eqb d c); lia.
Qed.

Lemma merge_entries_count (e1 e2 : SubtitleEntry) :
  Py.count (text (merge_entries e1 e2)) (ascii_of_nat 10)
  = Py.count (text e1) (ascii_of_nat 10)
    + Py.count (text e2) (ascii_of_nat 10) + 1.
Proof.
  unfold merge_entries; cbn [text].
  destruct (Z.min (start e1) (start e2) =? start e1);
    rewrite !count_append; unfold Py.LF; cbn [Py.count];
    rewrite Ascii.eqb_refl; lia.
Qed.

(** X4: the text of a merged entry has one line break more than the two
    texts together, so printing it raises the line-count warning exactly
    when one of the two texts already has a line break. *)
Theorem merge_entries_line_count (e1 e2 : SubtitleEntry) (index : Z) :
  Py.count (text (merge_entries e1 e2)) (ascii_of_nat 10)
  = Py.count (text e1) (ascii_of_nat 10)
    + Py.count (text e2) (ascii_of_nat 10) + 1
  /\ (fst (print_entry (merge_entries e1 e2) index) = []
      <-> Py.count (text e1) (ascii_of_nat 10) = 0
          /\ Py.count (text e2) (ascii_of_nat 10) = 0)
  /\ (fst (print_entry (merge_entries e1 e2) index)
        = [excessive_lines (merge_entries e1 e2)]
      <-> 0 < Py.count (text e1) (ascii_of_nat 10)
               + Py.count (text e2) (ascii_of_nat 10)).
Proof.
  pose proof (merge_entries_count e1 e2) as Hc.
  pose proof (count_nonneg (text e1) (ascii_of_nat 10)) as H1.
  pose proof (count_nonneg (text e2) (ascii_of_nat 10)) as H2.
  split; [exact Hc|].
  unfold print_entry; cbn [fst].
  destruct (Z.gtb_spec (Py.count (text (merge_entries e1 e2)) (ascii_of_nat 10)) 1)
    as [Hg|Hg]; repeat split; intros; try lia; try discriminate; reflexivity.
Qed.

(** ** The codec on all integers *)

Lemma int_body_digits0 (s : string) :
  str_all Py.is_digit s = true -> (1 <= String.length s)%nat ->
  Py.int_body 0 false s = Some (digits_value s).
Proof.
  destruct s as [|c s]; cbn [String.length str_all]; [lia|].
  intros Hd _. apply andb_true_iff in Hd. destruct Hd as [Hc Hs].
  cbn [Py.int_body]. rewrite Hc. now apply int_body_digits.
Qed.

Lemma int_neg_digits (s : string) :
  str_all Py.is_digit s = true -> (1 <= String.length s)%nat ->
  Py.int (String "-" s) = Ok (- digits_value s).
Proof.
  intros Hd Hl. unfold Py.int.
  change (Py.lstrip (String "-" s)) with (String "-" s).
  change (Py.rstrip (String "-" s)) with (String "-" (Py.rstrip s)).
  rewrite (rstrip_digits s Hd). cbv iota beta.
  now rewrite (int_body_digits0 s Hd Hl).
Qed.

Lemma format0_int (w : nat) (z : Z) :
  Py.int (Py.format0 w z) = Ok z
  /\ str_all signed_char (Py.format0 w z) = true.
Proof.
  destruct (Z.ltb_spec z 0) as [Hneg|Hpos].
  - unfold Py.format0. destruct (Z.ltb_spec z 0); [|lia].
    destruct (digits_spec (- z) ltac:(lia)) as (Hd & Hv & Hl & _).
    destruct (zfill_spec (w - 1) _ Hd) as (Hzd & Hzv & Hzl).
    cbn [append]. split.
    + rewrite int_neg_digits; [f_equal; lia | assumption | lia].
    + cbn [str_all]. apply andb_true_iff. split; [reflexivity|].
      revert Hzd. apply str_all_impl. intros c Hc. unfold signed_char.
      now rewrite Hc.
  - destruct (format0_field w z Hpos) as (Hd & Hv & Hl). split.
    + rewrite int_digits by assumption. now rewrite Hv.
    + revert Hd. apply str_all_impl. intros c Hc. unfold signed_char.
      now rewrite Hc.
Qed.

Lemma signed_no_sep (x : ascii) (s : string) :
  signed_char x = false ->
  str_all signed_char s = true ->
  str_all (fun c => negb (Ascii.eqb c x)) s = true.
Proof.
  intro Hx. apply str_all_impl. intros c Hc.
  destruct (Ascii.eqb_spec c x) as [->|_]; [congruence|reflexivity].
Qed.

Lemma digits_signed (s : string) :
  str_all Py.is_digit s = true -> str_all signed_char s = true.
Proof.
  apply str_all_impl. intros c Hc. unfold signed_char. now rewrite Hc.
Qed.

(** Four fields that [int] reads, written around two colons and a comma. *)
Lemma parse_signed_fields (H M S F : string) (h m s f : Z) :
  Py.int H = Ok h -> str_all signed_char H = true ->
  Py.int M = Ok m -> str_all signed_char M = true ->
  Py.int S = Ok s -> str_all signed_char S = true ->
  Py.int F = Ok f -> str_all signed_char F = true ->
  srt_timecode_to_msecs (H ++ ":" ++ M ++ ":" ++ S ++ "," ++ F)
  = Ok (f + s * 1000 + m * 1000 * 60 + h * 1000 * 60 * 60).
Proof.
  intros Ih Ch Im Cm Is Cs If Cf.
  assert (E : (H ++ ":" ++ M ++ ":" ++ S ++ "," ++ F
               = (H ++ ":" ++ M ++ ":" ++ S) ++ String "," F)%string).
  { now rewrite !append_assoc. }
  unfold srt_timecode_to_msecs. rewrite E.
  rewrite split_sep.
  2: { rewrite !str_all_append. cbn [str_all append].
       rewrite !(signed_no_sep "," _ eq_refl) by assumption. reflexivity. }
  rewrite split_nosep by (now apply signed_no_sep).
  rewrite If. cbn [bind].
  change (":" ++ M ++ ":" ++ S)%string with (String ":" (M ++ String ":" S)).
  rewrite !split_sep, split_nosep by (now apply signed_no_sep).
  cbn [map_result]. rewrite Ih, Im, Is. reflexivity.
Qed.

Lemma msecs_round_trip (m : Z) :
  srt_timecode_to_msecs (msecs_to_srt_timecode m) = Ok m.
Proof.
  rewrite msecs_to_srt_timecode_fields.
  destruct (format0_int 2 (m / 1000 / 60 / 60)) as [Ih Ch].
  destruct (format0_int 2 ((m / 1000 / 60) mod 60)) as [Im Cm].
  destruct (format0_int 2 ((m / 1000) mod 60)) as [Is Cs].
  destruct (format0_int 3 (m mod 1000)) as [If Cf].
  rewrite (parse_signed_fields _ _ _ _ _ _ _ _ Ih Ch Im Cm Is Cs If Cf).
  f_equal.
  pose proof (Z.div_mod m 1000 ltac:(lia)).
  pose proof (Z.div_mod (m / 1000) 60 ltac:(lia)).
  pose proof (Z.div_mod (m / 1000 / 60) 60 ltac:(lia)).
  lia.
Qed.

(** X5: reading the timecode written for any integer gives the integer
    back, a negative one included: its hours are written with a minus sign
    and its other fields are the non-negative remainders. *)
Theorem timecode_round_trip_all_integers (m : Z) :
  srt_timecode_to_msecs (msecs_to_srt_timecode m) = Ok m
  /\ (m < 0 -> exists rest, msecs_to_srt_timecode m = String "-" rest).
Proof.
  split; [apply msecs_round_trip|].
  intro Hm. rewrite msecs_to_srt_timecode_fields.
  assert (Hh : m / 1000 / 60 / 60 < 0).
  { assert (m / 1000 < 0) by (apply Z.div_lt_upper_bound; lia).
    assert (m / 1000 / 60 < 0) by (apply Z.div_lt_upper_bound; lia).
    apply Z.div_lt_upper_bound; lia. }
  unfold Py.format0 at 1. destruct (Z.ltb_spec (m / 1000 / 60 / 60) 0); [|lia].
  cbn [append]. eexists. reflexivity.
Qed.

Lemma timecode_round_trip_all_integers_witness :
  srt_timecode_to_msecs (msecs_to_srt_timecode (-1)) = Ok (-1)
  /\ exists rest, msecs_to_srt_timecode (-1) = String "-" rest.
Proof.
  split.
  - apply (proj1 (timecode_round_trip_all_integers (-1))).
  - apply (proj2 (timecode_round_trip_all_integers (-1))). lia.
Defined.

(** ** The shape of a written timecode *)

Lemma format0_length (w : nat) (n : Z) :
  (1 <= w)%nat -> 0 <= n < 10 ^ Z.of_nat w ->
  String.length (Py.format0 w n) = w.
Proof.
  intros Hw Hn. rewrite format0_nonneg by lia.
  destruct (digits_spec n ltac:(lia)) as (Hd & Hv & Hl & Ht).
  destruct (zfill_spec w _ Hd) as (_ & _ & Hzl).
  rewrite Hzl. apply Nat.max_l.
  destruct Ht as [Ht|Ht]; [lia|].
  assert (Hlt : 10 ^ (Z.of_nat (String.length (Py.digits n)) - 1)
                < 10 ^ Z.of_nat w) by lia.
  apply Z.pow_lt_mono_r_iff in Hlt; lia.
Qed.

Lemma format0_length_ge (w : nat) (n : Z) :
  0 <= n -> 10 ^ Z.of_nat w <= n ->
  (w < String.length (Py.format0 w n))%nat.
Proof.
  intros Hn Hb.
  destruct (format0_field w n Hn) as (Hd & Hv & _).
  pose proof (digits_value_bound _ Hd) as Hu. rewrite Hv in Hu.
  assert (Hlt : 10 ^ Z.of_nat w
                < 10 ^ Z.of_nat (String.length (Py.format0 w n))) by lia.
  apply Z.pow_lt_mono_r_iff in Hlt; lia.
Qed.

Lemma well_formed_of_fields (H M S F : string) :
  str_all Py.is_digit H = true -> String.length H = 2%nat ->
  str_all Py.is_digit M = true -> String.length M = 2%nat ->
  str_all Py.is_digit S = true -> String.length S = 2%nat ->
  str_all Py.is_digit F = true -> String.length F = 3%nat ->
  well_formed_timecode (H ++ ":" ++ M ++ ":" ++ S ++ "," ++ F) = true.
Proof.
  intros Dh Lh Dm Lm Ds Ls Df Lf.
  destruct H as [|h1 [|h2 [|? ?]]]; try discriminate.
  destruct M as [|m1 [|m2 [|? ?]]]; try discriminate.
  destruct S as [|s1 [|s2 [|? ?]]]; try discriminate.
  destruct F as [|f1 [|f2 [|f3 [|? ?]]]]; try discriminate.
  unfold well_formed_timecode.
  cbn [append String.length Nat.eqb substring andb].
  cbn [str_all] in *.
  rewrite Dh, Dm, Ds, Df. reflexivity.
Qed.

Lemma length_timecode (m : Z) :
  String.length (msecs_to_srt_timecode m)
  = (String.length (Py.format0 2 (m / 1000 / 60 / 60)) + 1
     + String.length (Py.format0 2 ((m / 1000 / 60) mod 60)) + 1
     + String.length (Py.format0 2 ((m / 1000) mod 60)) + 1
     + String.length (Py.format0 3 (m mod 1000)))%nat.
Proof.
  rewrite msecs_to_srt_timecode_fields, !length_append. cbn [String.length].
  lia.
Qed.

(** X6: the timecode written for a non-negative number has the shape
    HH:MM:SS,mmm exactly when the number is below 100 hours; from 100 hours
    on the hour field takes more digits and the timecode is longer than
    twelve characters. *)
Theorem msecs_to_srt_timecode_shape (m : Z) :
  0 <= m ->
  (well_formed_timecode (msecs_to_srt_timecode m) = true <-> m < 360000000)
  /\ (360000000 <= m ->
      (12 < String.length (msecs_to_srt_timecode m))%nat).
Proof.
  intro Hm.
  assert (H1 : 0 <= m / 1000) by (apply Z.div_pos; lia).
  assert (H2 : 0 <= m / 1000 / 60) by (apply Z.div_pos; lia).
  assert (H3 : 0 <= m / 1000 / 60 / 60) by (apply Z.div_pos; lia).
  assert (H4 : 0 <= (m / 1000 / 60) mod 60 < 60) by (apply Z.mod_pos_bound; lia).
  assert (H5 : 0 <= (m / 1000) mod 60 < 60) by (apply Z.mod_pos_bound; lia).
  assert (H6 : 0 <= m mod 1000 < 1000) by (apply Z.mod_pos_bound; lia).
  pose proof (format0_length 2 ((m / 1000 / 60) mod 60) ltac:(lia)
                ltac:(change (10 ^ Z.of_nat 2) with 100; lia)) as Lm.
  pose proof (format0_length 2 ((m / 1000) mod 60) ltac:(lia)
                ltac:(change (10 ^ Z.of_nat 2) with 100; lia)) as Ls.
  pose proof (format0_length 3 (m mod 1000) ltac:(lia)
                ltac:(change (10 ^ Z.of_nat 3) with 1000; lia)) as Lf.
  assert (Hlong : 360000000 <= m ->
                  (12 < String.length (msecs_to_srt_timecode m))%nat).
  { intro Hb.
    assert (Hh : 100 <= m / 1000 / 60 / 60).
    { apply Z.div_le_lower_bound; [lia|].
      apply Z.div_le_lower_bound; [lia|].
      apply Z.div_le_lower_bound; lia. }
    pose proof (format0_length_ge 2 (m / 1000 / 60 / 60) H3
                  ltac:(change (10 ^ Z.of_nat 2) with 100; lia)) as Lh.
    rewrite length_timecode, Lm, Ls, Lf. lia. }
  split; [|exact Hlong].
  split.
  - intro W. destruct (Z.lt_ge_cases m 360000000) as [Hlt|Hge]; [exact Hlt|].
    specialize (Hlong Hge).
    unfold well_formed_timecode in W.
    destruct (Nat.eqb_spec (String.length (msecs_to_srt_timecode m)) 12)
      as [E|E]; [lia | discriminate].
  - intro Hlt.
    assert (Hh : m / 1000 / 60 / 60 < 100).
    { apply Z.div_lt_upper_bound; [lia|].
      apply Z.div_lt_upper_bound; [lia|].
      apply Z.div_lt_upper_bound; lia. }
    pose proof (format0_length 2 (m / 1000 / 60 / 60) ltac:(lia)
                  ltac:(change (10 ^ Z.of_nat 2) with 100; lia)) as Lh.
    rewrite msecs_to_srt_timecode_fields.
    apply well_formed_of_fields; try assumption;
      apply format0_field; lia.
Qed.

Lemma msecs_to_srt_timecode_shape_witness :
  (well_formed_timecode (msecs_to_srt_timecode 359999999) = true
   <-> 359999999 < 360000000)
  /\ (360000000 <= 359999999 ->
      (12 < String.length (msecs_to_srt_timecode 359999999))%nat).
Proof.
  apply (msecs_to_srt_timecode_shape 359999999). lia.
Defined.

(** ** What the reader of timecodes accepts *)

Lemma split_one_length (x : ascii) (s : string) :
  Z.of_nat (List.length (Py.split (String x "") s)) = Py.count s x + 1.
Proof.
  unfold Py.split.
  assert (H : forall s,
             Z.of_nat (List.length (snd (Py.split_aux (String x "") 0 s)))
             = Py.count s x).
  { clear s. induction s as [|c s IH]; [reflexivity|].
    cbn [Py.split_aux Py.count]. rewrite prefix_one.
    cbn [String.length Nat.sub].
    destruct (Py.split_aux (String x "") 0 s) as [p ps].
    cbn [snd] in IH.
    destruct (Ascii.eqb c x); cbn [snd List.length]; lia. }
  specialize (H s).
  destruct (Py.split_aux (String x "") 0 s) as [p ps].
  cbn [snd List.length] in *. lia.
Qed.

(** X7: a string with no comma or with more than one comma is never read
    as a timecode: [srt_timecode_to_msecs] raises the [ValueError] of the
    failed unpacking before looking at any field. *)
Theorem srt_timecode_to_msecs_comma_count (tc : string) :
  Py.count tc "," <> 1 ->
  srt_timecode_to_msecs tc
  = Raise (Py.unpack_error 2 (Z.to_nat (Py.count tc "," + 1)))
  /\ exists msg, srt_timecode_to_msecs tc = Raise (ValueError msg).
Proof.
  intro Hc.
  pose proof (split_one_length "," tc) as Hl.
  assert (E : srt_timecode_to_msecs tc
              = Raise (Py.unpack_error 2 (Z.to_nat (Py.count tc "," + 1)))).
  { unfold srt_timecode_to_msecs.
    change (Py.split "," tc) with (Py.split (String "," "") tc) in *.
    destruct (Py.split (String "," "") tc) as [|a [|b [|c l]]];
      cbn [List.length] in Hl.
    - rewrite <- Hl. reflexivity.
    - rewrite <- Hl. reflexivity.
    - lia.
    - rewrite <- Hl, Nat2Z.id. reflexivity. }
  split; [exact E|]. rewrite E. unfold Py.unpack_error.
  destruct (_ <? _)%nat; eexists; reflexivity.
Qed.

Lemma srt_timecode_to_msecs_comma_count_witness :
  srt_timecode_to_msecs "00:00:01.000"
  = Raise (Py.unpack_error 2 (Z.to_nat (Py.count "00:00:01.000" "," + 1)))
  /\ exists msg, srt_timecode_to_msecs "00:00:01.000" = Raise (ValueError msg).
Proof.
  apply (srt_timecode_to_msecs_comma_count "00:00:01.000").
  vm_compute. discriminate.
Defined.

(** X8: every string of the shape HH:MM:SS,mmm is read, with no range check
    on its fields: the result is hours, minutes, seconds and milliseconds
    weighed by 3600000, 60000, 1000 and 1, and is not negative. *)
Theorem srt_timecode_to_msecs_well_formed (s : string) :
  well_formed_timecode s = true ->
  srt_timecode_to_msecs s
  = Ok (msec_field s + second_field s * 1000 + minute_field s * 1000 * 60
        + hour_field s * 1000 * 60 * 60)
  /\ 0 <= msec_field s + second_field s * 1000 + minute_field s * 1000 * 60
          + hour_field s * 1000 * 60 * 60.
Proof.
  intro W.
  assert (Hf : exists H M S F,
             (s = H ++ ":" ++ M ++ ":" ++ S ++ "," ++ F)%string
             /\ (str_all Py.is_digit H = true /\ String.length H = 2%nat)
             /\ (str_all Py.is_digit M = true /\ String.length M = 2%nat)
             /\ (str_all Py.is_digit S = true /\ String.length S = 2%nat)
             /\ (str_all Py.is_digit F = true /\ String.length F = 3%nat)
             /\ hour_field s = digits_value H
             /\ minute_field s = digits_value M
             /\ second_field s = digits_value S
             /\ msec_field s = digits_value F).
  { revert W.
    unfold well_formed_timecode, hour_field, minute_field, second_field,
      msec_field.
    do 12 (destruct s as [|? s]; [discriminate|]).
    destruct s; [|discriminate].
    cbn [String.length Nat.eqb substring andb].
    intro W.
    repeat match type of W with
           | (_ && _) = true => apply andb_true_iff in W; destruct W as [W ?]
           end.
    repeat match goal with
           | E : (String _ "" =? _)%string = true |- _ =>
               apply String.eqb_eq in E; injection E as ->
           end.
    do 4 eexists.
    split; [|repeat split; try eassumption; reflexivity].
    reflexivity. }
  destruct Hf as (H & M & S & F & Es & [Dh Lh] & [Dm Lm] & [Ds Ls] & [Df Lf]
                  & Eh & Em & Esec & Ef).
  rewrite Eh, Em, Esec, Ef.
  pose proof (digits_value_bound H Dh). pose proof (digits_value_bound M Dm).
  pose proof (digits_value_bound S Ds). pose proof (digits_value_bound F Df).
  split; [|lia].
  rewrite Es at 1. apply parse_fields; try assumption; lia.
Qed.

Lemma srt_timecode_to_msecs_well_formed_witness :
  srt_timecode_to_msecs "00:99:99,999"
  = Ok (msec_field "00:99:99,999" + second_field "00:99:99,999" * 1000
        + minute_field "00:99:99,999" * 1000 * 60
        + hour_field "00:99:99,999" * 1000 * 60 * 60)
  /\ 0 <= msec_field "00:99:99,999" + second_field "00:99:99,999" * 1000
          + minute_field "00:99:99,999" * 1000 * 60
          + hour_field "00:99:99,999" * 1000 * 60 * 60.
Proof.
  apply (srt_timecode_to_msecs_well_formed "00:99:99,999"). reflexivity.
Defined.

(** ** Reading back a printed block *)

Lemma index_of_count (s : string) (c : ascii) :
  0 < Py.count s c -> exists pos, Py.index s c = Ok pos.
Proof.
  unfold Py.index. intro H.
  assert (G : forall z, exists pos, Py.index_from z s c = Ok pos);
    [|exact (G 0)].
  induction s as [|d s IH]; intros z; cbn [Py.count Py.index_from] in *; [lia|].
  destruct (Ascii.eqb d c); [now exists z|].
  apply IH. lia.
Qed.

Lemma re_split_space_sep (a b : string) (w : ascii) (k : nat) :
  str_all (fun c => negb (Py.re_space c)) a = true ->
  Py.re_space w = true ->
  Py.re_split_space (a ++ String w b) (S k) = a :: Py.re_split_space b k.
Proof.
  intros Ha Hw. unfold Py.re_split_space.
  induction a as [|c a IH].
  - cbn [append Py.re_split_space_aux]. rewrite Hw.
    now destruct (Py.re_split_space_aux k b).
  - cbn [str_all] in Ha. apply andb_true_iff in Ha. destruct Ha as [Hc Ha].
    apply negb_true_iff in Hc.
    cbn [append Py.re_split_space_aux]. rewrite Hc.
    specialize (IH Ha).
    destruct (Py.re_split_space_aux (S k) (a ++ String w b)) as [p ps].
    destruct (Py.re_split_space_aux k b) as [q qs].
    now inversion IH.
Qed.

Lemma re_split_space_last (b : string) : Py.re_split_space b 0 = [b].
Proof. now destruct b. Qed.

Lemma signed_tc_char (c : ascii) : signed_char c = true -> tc_char c = true.
Proof.
  unfold signed_char, tc_char. intro H.
  apply orb_true_iff in H. destruct H as [H|H]; rewrite H;
    [reflexivity | now rewrite !orb_true_r].
Qed.

Lemma tc_char_not_space (c : ascii) :
  tc_char c = true -> negb (Py.re_space c) = true.
Proof.
  unfold tc_char. intro H.
  repeat (apply orb_true_iff in H; destruct H as [H|H]);
    try (apply Ascii.eqb_eq in H; subst c; reflexivity).
  apply is_digit_cases in H. cbn [In] in H.
  repeat (destruct H as [<-|H]; [reflexivity|]). contradiction.
Qed.

Lemma tc_char_not_LF (c : ascii) :
  tc_char c = true -> negb (Ascii.eqb c (ascii_of_nat 10)) = true.
Proof.
  intro H. apply tc_char_not_space in H.
  destruct (Ascii.eqb_spec c (ascii_of_nat 10)) as [->|_];
    [discriminate H | reflexivity].
Qed.

Lemma str_chars (z : Z) : str_all tc_char (Py.str z) = true.
Proof.
  unfold Py.str. destruct (Z.ltb_spec z 0).
  - destruct (digits_spec (- z) ltac:(lia)) as (Hd & _).
    cbn [append str_all]. apply andb_true_iff. split; [reflexivity|].
    revert Hd. apply str_all_impl. intros c Hc. unfold tc_char. now rewrite Hc.
  - destruct (digits_spec z ltac:(lia)) as (Hd & _).
    revert Hd. apply str_all_impl. intros c Hc. unfold tc_char. now rewrite Hc.
Qed.

Lemma timecode_chars (m : Z) :
  str_all tc_char (msecs_to_srt_timecode m) = true.
Proof.
  rewrite msecs_to_srt_timecode_fields, !str_all_append. cbn [str_all].
  rewrite !(str_all_impl _ _ _ signed_tc_char (proj2 (format0_int _ _))).
  reflexivity.
Qed.

Lemma timecode_has_colon (m : Z) : 0 < Py.count (msecs_to_srt_timecode m) ":".
Proof.
  rewrite msecs_to_srt_timecode_fields, !count_append.
  cbn [Py.count]. rewrite Ascii.eqb_refl.
  pose proof (count_nonneg (Py.format0 2 (m / 1000 / 60 / 60)) ":").
  pose proof (count_nonneg (Py.format0 2 ((m / 1000 / 60) mod 60)) ":").
  pose proof (count_nonneg (Py.format0 2 ((m / 1000) mod 60)) ":").
  pose proof (count_nonneg (Py.format0 3 (m mod 1000)) ":").
  destruct (Ascii.eqb "," ":"); lia.
Qed.

(** X9: the block [print_entry] returns is read back by [_do_entry] as
    the entry it was printed from, for every index, every start and end
    (negative ones too) and every text. *)
Theorem do_entry_print_entry (e : SubtitleEntry) (index : Z) :
  do_entry (snd (print_entry e index)) = Ok e.
Proof.
  change (snd (print_entry e index)) with (render e index).
  assert (Er : render e index
               = (Py.str index ++ String (ascii_of_nat 10)
                   (msecs_to_srt_timecode (start e) ++ String " "
                     ("-->" ++ String " "
                       (msecs_to_srt_timecode (end_ e)
                          ++ String (ascii_of_nat 10) (text e)))))%string).
  { reflexivity. }
  assert (Hs : Py.re_split_space (render e index) 4
               = [Py.str index; msecs_to_srt_timecode (start e); "-->";
                  msecs_to_srt_timecode (end_ e); text e]).
  { rewrite Er.
    rewrite re_split_space_sep;
      [|exact (str_all_impl _ _ _ tc_char_not_space (str_chars index))
       |reflexivity].
    rewrite re_split_space_sep;
      [|exact (str_all_impl _ _ _ tc_char_not_space (timecode_chars _))
       |reflexivity].
    rewrite re_split_space_sep; [|reflexivity|reflexivity].
    rewrite re_split_space_sep;
      [|exact (str_all_impl _ _ _ tc_char_not_space (timecode_chars _))
       |reflexivity].
    now rewrite re_split_space_last. }
  destruct (index_of_count (render e index) ":") as [pos Hp].
  { rewrite Er, !count_append. cbn [Py.count].
    pose proof (count_nonneg (Py.str index) ":").
    pose proof (timecode_has_colon (start e)).
    pose proof (count_nonneg
      ("-->" ++ String " " (msecs_to_srt_timecode (end_ e)
                              ++ String (ascii_of_nat 10) (text e))) ":").
    rewrite count_append. cbn [Py.count].
    pose proof (count_nonneg ("-->" ++ String " "
      (msecs_to_srt_timecode (end_ e) ++ String (ascii_of_nat 10) (text e))) ":").
    destruct (Ascii.eqb (ascii_of_nat 10) ":"), (Ascii.eqb " " ":"); lia. }
  rewrite (do_entry_five _ _ _ _ _ _ Hs), Hp. cbn [bind negb String.eqb].
  rewrite !msecs_round_trip. cbn [bind]. now destruct e.
Qed.


(** ** Trimming *)

Lemma read_subs_parsed (read_text : string -> result string) (inp : Input)
  (content : string) (subs : list SubtitleEntry) :
  read_text (filename inp) = Ok content ->
  map_result do_entry (blocks content) = Ok subs ->
  read_subs read_text inp
  = Py.islice subs (skip_first inp)
      (Z.of_nat (List.length subs) - skip_last inp).
Proof.
  intros Hr Hm. unfold read_subs. rewrite Hr; cbn [bind]. now rewrite Hm.
Qed.

Lemma islice_in_range {A : Type} (l : list A) (start stop : Z) :
  0 <= start <= Py.maxsize -> 0 <= stop <= Py.maxsize ->
  Py.islice l start stop
  = Ok (skipn (Z.to_nat start) (firstn (Z.to_nat stop) l)).
Proof.
  intros Hs Ht. unfold Py.islice.
  assert (Hmax : 0 < Py.maxsize) by reflexivity.
  destruct (Z.eqb_spec stop (-1)); [lia|].
  destruct (Z.ltb_spec Py.maxsize stop); [lia|].
  destruct (Z.ltb_spec stop (- Py.maxsize - 1)); [lia|].
  destruct (Z.ltb_spec start 0); [lia|].
  destruct (Z.ltb_spec Py.maxsize start); [lia|].
  destruct (Z.ltb_spec stop (-1)); [lia|].
  reflexivity.
Qed.

Lemma islice_start_error {A : Type} (l : list A) (start stop : Z) :
  start < 0 \/ Py.maxsize < start ->
  Py.islice l start stop
  = Raise (if (stop =? -1) || (Py.maxsize <? stop)
              || (stop <? - Py.maxsize - 1)
           then Py.stop_error else Py.indices_error).
Proof.
  intro Hs. unfold Py.islice.
  destruct ((stop =? -1) || (Py.maxsize <? stop) || (stop <? - Py.maxsize - 1));
    [reflexivity|].
  destruct (Z.ltb_spec start 0) as [E1|E1]; [reflexivity|].
  destruct (Z.ltb_spec Py.maxsize start) as [E2|E2]; [reflexivity|lia].
Qed.

Lemma islice_stop_overflow {A : Type} (l : list A) (start stop : Z) :
  Py.maxsize < stop -> Py.islice l start stop = Raise Py.stop_error.
Proof.
  intro Hs. unfold Py.islice.
  destruct (Z.ltb_spec Py.maxsize stop); [|lia].
  now rewrite orb_true_r.
Qed.

(** X10: when every block parses and the two counts fit the number of
    entries, [read_subs] drops exactly [skip_first] entries at the front
    and [skip_last] entries at the back and keeps the others in order. *)
Theorem read_subs_trims
  (read_text : string -> result string) (inp : Input) (content : string)
  (subs : list SubtitleEntry) :
  read_text (filename inp) = Ok content ->
  map_result do_entry (blocks content) = Ok subs ->
  Z.of_nat (List.length subs) <= Py.maxsize ->
  0 <= skip_first inp -> 0 <= skip_last inp ->
  skip_first inp + skip_last inp <= Z.of_nat (List.length subs) ->
  exists front kept back,
    read_subs read_text inp = Ok kept
    /\ subs = (front ++ kept ++ back)%list
    /\ Z.of_nat (List.length front) = skip_first inp
    /\ Z.of_nat (List.length back) = skip_last inp.
Proof.
  intros Hr Hm Hmax Hf Hl Hsum.
  set (n := List.length subs) in *.
  set (stop := Z.to_nat (Z.of_nat n - skip_last inp)).
  set (sf := Z.to_nat (skip_first inp)).
  exists (firstn sf subs), (skipn sf (firstn stop subs)), (skipn stop subs).
  split; [|split; [|split]].
  - rewrite (read_subs_parsed _ _ _ _ Hr Hm).
    apply islice_in_range; fold n; lia.
  - rewrite <- (firstn_skipn stop subs) at 1.
    rewrite <- (firstn_skipn sf (firstn stop subs)) at 1.
    rewrite firstn_firstn, (Nat.min_l sf stop) by (unfold sf, stop; lia).
    now rewrite <- app_assoc.
  - rewrite length_firstn. fold n. unfold sf. lia.
  - rewrite length_skipn. fold n. unfold stop. lia.
Qed.

Lemma read_subs_trims_witness :
  exists front kept back,
    read_subs (fun _ => Ok three_blocks) (mkInput "a.srt" 1 0) = Ok kept
    /\ three_entries = (front ++ kept ++ back)%list
    /\ Z.of_nat (List.length front) = 1
    /\ Z.of_nat (List.length back) = 0.
Proof.
  apply (read_subs_trims (fun _ => Ok three_blocks) (mkInput "a.srt" 1 0)
           three_blocks three_entries eq_refl eq_refl).
  - vm_compute. discriminate.
  - simpl; lia.
  - simpl; lia.
  - simpl; lia.
Defined.

(** X11: a [skip_first] that reaches past the entries left by [skip_last]
    gives the empty sequence and no error as long as it is at most
    [sys.maxsize]; beyond [sys.maxsize] it raises the indices error of
    [islice]. *)
Theorem read_subs_skip_first_too_large
  (read_text : string -> result string) (inp : Input) (content : string)
  (subs : list SubtitleEntry) :
  read_text (filename inp) = Ok content ->
  map_result do_entry (blocks content) = Ok subs ->
  Z.of_nat (List.length subs) <= Py.maxsize ->
  0 <= skip_last inp <= Z.of_nat (List.length subs) ->
  Z.of_nat (List.length subs) - skip_last inp <= skip_first inp ->
  read_subs read_text inp
  = if skip_first inp <=? Py.maxsize then Ok [] else Raise Py.indices_error.
Proof.
  intros Hr Hm Hmax Hl Hf.
  rewrite (read_subs_parsed _ _ _ _ Hr Hm).
  destruct (Z.leb_spec (skip_first inp) Py.maxsize) as [Hb|Hb].
  - rewrite islice_in_range by lia. f_equal.
    apply skipn_all2. rewrite length_firstn. lia.
  - rewrite islice_start_error by lia.
    set (stop := Z.of_nat (List.length subs) - skip_last inp).
    assert (Hs : 0 <= stop <= Py.maxsize) by (unfold stop; lia).
    assert (Hpos : 0 < Py.maxsize) by reflexivity.
    destruct (Z.eqb_spec stop (-1)); [lia|].
    destruct (Z.ltb_spec Py.maxsize stop); [lia|].
    destruct (Z.ltb_spec stop (- Py.maxsize - 1)); [lia|].
    reflexivity.
Qed.

Lemma read_subs_skip_first_too_large_witness :
  read_subs (fun _ => Ok one_block) (mkInput "a.srt" (2 ^ 63) 0)
  = if 2 ^ 63 <=? Py.maxsize then Ok [] else Raise Py.indices_error.
Proof.
  apply (read_subs_skip_first_too_large
           (fun _ => Ok one_block) (mkInput "a.srt" (2 ^ 63) 0)
           one_block [mkSubtitleEntry 1000 2000 "a"] eq_refl eq_refl).
  - vm_compute. discriminate.
  - simpl; lia.
  - vm_compute. discriminate.
Defined.

(** X12: the counts are not checked for their sign by [read_subs] itself.
    A negative [skip_first] raises a [ValueError] of [islice]: the indices
    error, or the stop error when the stop bound is -1 or outside the
    machine range.  A negative [skip_last] drops nothing at the back, unless
    the stop bound it gives exceeds [sys.maxsize], which is the stop
    error. *)
Theorem read_subs_negative_counts
  (read_text : string -> result string) (inp : Input) (content : string)
  (subs : list SubtitleEntry) :
  read_text (filename inp) = Ok content ->
  map_result do_entry (blocks content) = Ok subs ->
  (skip_first inp < 0 ->
   read_subs read_text inp
   = Raise (if (Z.of_nat (List.length subs) - skip_last inp =? -1)
               || (Py.maxsize <? Z.of_nat (List.length subs) - skip_last inp)
               || (Z.of_nat (List.length subs) - skip_last inp
                   <? - Py.maxsize - 1)
            then Py.stop_error else Py.indices_error))
  /\ (skip_last inp < 0 -> 0 <= skip_first inp <= Py.maxsize ->
      read_subs read_text inp
      = if Z.of_nat (List.length subs) - skip_last inp <=? Py.maxsize
        then Ok (skipn (Z.to_nat (skip_first inp)) subs)
        else Raise Py.stop_error).
Proof.
  intros Hr Hm. rewrite (read_subs_parsed _ _ _ _ Hr Hm). split.
  - intro Hneg. apply islice_start_error. now left.
  - intros Hneg Hf.
    destruct (Z.leb_spec (Z.of_nat (List.length subs) - skip_last inp)
                Py.maxsize) as [Hb|Hb].
    + rewrite islice_in_range by lia. now rewrite firstn_all2 by lia.
    + now apply islice_stop_overflow.
Qed.

Lemma read_subs_negative_counts_witness :
  read_subs (fun _ => Ok one_block) (mkInput "a.srt" 0 (- 2 ^ 63))
  = if Z.of_nat (List.length [mkSubtitleEntry 1000 2000 "a"]) - (- 2 ^ 63)
       <=? Py.maxsize
    then Ok (skipn (Z.to_nat 0) [mkSubtitleEntry 1000 2000 "a"])
    else Raise Py.stop_error.
Proof.
  apply (proj2 (read_subs_negative_counts
                  (fun _ => Ok one_block) (mkInput "a.srt" 0 (- 2 ^ 63))
                  one_block [mkSubtitleEntry 1000 2000 "a"] eq_refl eq_refl)).
  - simpl; lia.
  - vm_compute. split; discriminate.
Defined.

(** ** The sequencer as a two-pointer scan *)

Lemma emitted_cons_cons (a b : SubtitleEntry) (r1 r2 : list SubtitleEntry) :
  emitted (a :: r1) (b :: r2)
  = (if has_overlap a b then merge_entries a b
     else if start a <? start b then a else b)
    :: (if start a <? start b then emitted r1 (b :: r2)
        else emitted (a :: r1) r2).
Proof. reflexivity. Qed.

Lemma merged_count_cons_cons (a b : SubtitleEntry)
  (r1 r2 : list SubtitleEntry) :
  merged_count (a :: r1) (b :: r2)
  = ((if has_overlap a b then 1%nat else 0%nat)
     + (if (start a <? start b)%Z then merged_count r1 (b :: r2)
        else merged_count (a :: r1) r2))%nat.
Proof. reflexivity. Qed.

Lemma emitted_nil_r (l : list SubtitleEntry) : emitted l [] = l.
Proof. now destruct l. Qed.

Lemma emitted_nil_l (l : list SubtitleEntry) : emitted [] l = l.
Proof. now destruct l. Qed.

Lemma merged_count_nil_r (l : list SubtitleEntry) : merged_count l [] = 0%nat.
Proof. now destruct l. Qed.

Lemma merges_app (xs ys : list event) :
  merges (xs ++ ys) = (merges xs + merges ys)%nat.
Proof. unfold merges. now rewrite filter_app, length_app. Qed.

Lemma merges_print_block (e : SubtitleEntry) (k : Z) :
  merges (print_block e k) = 0%nat.
Proof.
  unfold print_block, print_entry.
  destruct (Py.count (text e) (ascii_of_nat 10) >? 1); reflexivity.
Qed.

Lemma merges_overlap_warning (a b : item) (evs : list event) :
  merges (overlap_warning a b :: evs) = S (merges evs).
Proof. reflexivity. Qed.

Lemma merges_drain (items : list item) (idx : Z) :
  merges (fst (drain_items items idx)) = 0%nat.
Proof.
  revert idx; induction items as [|x items IH]; intro idx;
    cbn [drain_items]; [reflexivity|].
  specialize (IH (idx + 1)).
  destruct (drain_items items (idx + 1)) as [evs idx'].
  cbn [fst] in *. now rewrite merges_app, merges_print_block, IH.
Qed.

Lemma pending_next (it : list item) :
  pending (fst (Py.next it)) (snd (Py.next it)) = it.
Proof. now destruct it. Qed.

(** A turn of the loop with both cursors active. *)
Lemma both_active_step (st : state) (a b : item) :
  s1 st = Some a -> s2 st = Some b ->
  stdout_of (trace (loop_body st))
  = (stdout_of (trace st)
     ++ blocks_from (new_idx st + 1)
          [if has_overlap (snd a) (snd b)
           then merge_entries (snd a) (snd b)
           else if start (snd a) <? start (snd b) then snd a else snd b])%list
  /\ merges (trace (loop_body st))
     = (merges (trace st) + (if has_overlap (snd a) (snd b) then 1 else 0))%nat
  /\ new_idx (loop_body st) = new_idx st + 1
  /\ pending (s1 (loop_body st)) (i1 (loop_body st))
     = (if start (snd a) <? start (snd b) then i1 st else a :: i1 st)
  /\ pending (s2 (loop_body st)) (i2 (loop_body st))
     = (if start (snd a) <? start (snd b) then b :: i2 st else i2 st).
Proof.
  intros E1 E2. unfold loop_body. rewrite E1, E2.
  destruct (has_overlap (snd a) (snd b));
    destruct (start (snd a) <? start (snd b)).
  - rewrite (surjective_pairing (Py.next (i1 st))).
    cbn [trace new_idx s1 s2 i1 i2]. rewrite pending_next.
    rewrite !stdout_of_app, !merges_app, merges_overlap_warning.
    cbn [stdout_of overlap_warning pending].
    rewrite stdout_of_print_block, merges_print_block.
    repeat split; try reflexivity; try (cbn; lia).
  - rewrite (surjective_pairing (Py.next (i2 st))).
    cbn [trace new_idx s1 s2 i1 i2]. rewrite pending_next.
    rewrite !stdout_of_app, !merges_app, merges_overlap_warning.
    cbn [stdout_of overlap_warning pending].
    rewrite stdout_of_print_block, merges_print_block.
    repeat split; try reflexivity; try (cbn; lia).
  - rewrite (surjective_pairing (Py.next (i1 st))).
    cbn [trace new_idx s1 s2 i1 i2 app]. rewrite pending_next.
    rewrite !stdout_of_app, !merges_app.
    cbn [pending].
    rewrite stdout_of_print_block, merges_print_block.
    repeat split; try reflexivity.
  - rewrite (surjective_pairing (Py.next (i2 st))).
    cbn [trace new_idx s1 s2 i1 i2 app]. rewrite pending_next.
    rewrite !stdout_of_app, !merges_app.
    cbn [pending].
    rewrite stdout_of_print_block, merges_print_block.
    repeat split; try reflexivity.
Qed.

(** A turn of the loop with one cursor exhausted. *)
Lemma drain_step (st : state) :
  s1 st = None \/ s2 st = None ->
  loop_cond (loop_body st) = false
  /\ stdout_of (trace (loop_body st))
     = (stdout_of (trace st)
        ++ blocks_from (new_idx st + 1)
             (map snd (pending (s1 st) (i1 st))
              ++ map snd (pending (s2 st) (i2 st))))%list
  /\ merges (trace (loop_body st)) = merges (trace st).
Proof.
  intro Hn.
  assert (E : loop_body st
              = let '(evs1, idx1) :=
                  drain_items (pending (s1 st) (i1 st)) (new_idx st + 1) in
                let '(evs2, idx2) :=
                  drain_items (pending (s2 st) (i2 st)) idx1 in
                mkState None [] None [] idx2 (trace st ++ evs1 ++ evs2)%list).
  { unfold loop_body.
    destruct Hn as [Hn|Hn]; rewrite Hn; [reflexivity|].
    now destruct (s1 st). }
  rewrite E. clear E.
  pose proof (drain_items_spec (pending (s1 st) (i1 st)) (new_idx st + 1))
    as [Hn1 Ho1].
  pose proof (merges_drain (pending (s1 st) (i1 st)) (new_idx st + 1)) as Hm1.
  destruct (drain_items (pending (s1 st) (i1 st)) (new_idx st + 1))
    as [evs1 idx1].
  cbn [fst snd] in *.
  pose proof (drain_items_spec (pending (s2 st) (i2 st)) idx1) as [Hn2 Ho2].
  pose proof (merges_drain (pending (s2 st) (i2 st)) idx1) as Hm2.
  destruct (drain_items (pending (s2 st) (i2 st)) idx1) as [evs2 idx2].
  cbn [fst snd trace] in *.
  rewrite !stdout_of_app, !merges_app, Ho1, Ho2, Hm1, Hm2, blocks_from_app.
  rewrite Hn1, length_map.
  repeat split; try reflexivity. lia.
Qed.

Lemma run_emitted (fuel : nat) :
  forall st : state,
    (measure st <= fuel)%nat ->
    exists st',
      run fuel st = Some st'
      /\ stdout_of (trace st')
         = (stdout_of (trace st)
            ++ blocks_from (new_idx st + 1)
                 (emitted (map snd (pending (s1 st) (i1 st)))
                          (map snd (pending (s2 st) (i2 st)))))%list
      /\ merges (trace st')
         = (merges (trace st)
            + merged_count (map snd (pending (s1 st) (i1 st)))
                           (map snd (pending (s2 st) (i2 st))))%nat.
Proof.
  induction fuel as [|fuel IH]; intros st Hm; rewrite run_unfold;
    unfold measure in Hm; unfold loop_cond;
    destruct (s1 st) as [a|] eqn:E1, (s2 st) as [b|] eqn:E2;
    cbn [pending List.length] in Hm; try lia.
  - (* out of fuel, nothing pending *)
    exists st. cbn. rewrite app_nil_r. split; [reflexivity|]. split; [reflexivity|lia].
  - (* both active *)
    destruct (both_active_step st a b E1 E2) as (Ho & Hg & Hn & Hp1 & Hp2).
    destruct (IH (loop_body st)) as (st' & Hr & Ho' & Hg').
    { unfold measure. rewrite Hp1, Hp2.
      destruct (start (snd a) <? start (snd b)); cbn [List.length]; lia. }
    exists st'. split; [exact Hr|].
    rewrite Ho', Hg', Ho, Hg, Hn, Hp1, Hp2.
    cbn [pending map]. rewrite emitted_cons_cons, merged_count_cons_cons.
    cbn [blocks_from].
    destruct (start (snd a) <? start (snd b)); cbn [map];
      rewrite <- !app_assoc; cbn [app]; split; try reflexivity; lia.
  - (* only cursor 1 active *)
    destruct (drain_step st (or_intror E2)) as (Hc & Ho & Hg).
    exists (loop_body st). rewrite run_unfold, Hc, Ho, Hg, E1, E2.
    cbn [pending map]. rewrite emitted_nil_r, merged_count_nil_r, app_nil_r.
    repeat split. lia.
  - (* only cursor 2 active *)
    destruct (drain_step st (or_introl E1)) as (Hc & Ho & Hg).
    exists (loop_body st). rewrite run_unfold, Hc, Ho, Hg, E1, E2.
    cbn [pending map app]. rewrite emitted_nil_l.
    repeat split. cbn. lia.
  - (* nothing pending *)
    exists st. cbn. rewrite app_nil_r. split; [reflexivity|]. split; [reflexivity|lia].
Qed.

Lemma map_snd_enumerate_from {A : Type} (n : Z) (l : list A) :
  map snd (Py.enumerate_from n l) = l.
Proof.
  revert n; induction l as [|a l IH]; intro n; cbn; [reflexivity|].
  now rewrite IH.
Qed.

Lemma pending_init (l1 l2 : list SubtitleEntry) :
  map snd (pending (s1 (init l1 l2)) (i1 (init l1 l2))) = l1
  /\ map snd (pending (s2 (init l1 l2)) (i2 (init l1 l2))) = l2.
Proof.
  unfold init, Py.enumerate.
  destruct l1 as [|a l1], l2 as [|b l2]; cbn;
    rewrite ?map_snd_enumerate_from; split; reflexivity.
Qed.

(** The run ends, and prints the blocks of the two-pointer scan. *)
Lemma sequencer_emitted (l1 l2 : list SubtitleEntry) :
  exists st,
    sequencer l1 l2 = Some st
    /\ stdout_of (trace st) = blocks_from 1 (emitted l1 l2)
    /\ merges (trace st) = merged_count l1 l2.
Proof.
  destruct (run_emitted (List.length l1 + List.length l2) (init l1 l2))
    as (st & Hr & Ho & Hg).
  { rewrite measure_init. lia. }
  destruct (pending_init l1 l2) as [P1 P2]. rewrite P1, P2 in Ho, Hg.
  exists st. split; [exact Hr|].
  rewrite Ho, Hg. destruct l1, l2; split; reflexivity.
Qed.

Lemma emitted_lower_bound (m : Z) (l1 : list SubtitleEntry) :
  forall l2,
    Forall (fun e => m <= start e) l1 ->
    Forall (fun e => m <= start e) l2 ->
    Forall (fun e => m <= start e) (emitted l1 l2).
Proof.
  induction l1 as [|a r1 IH1]; intros l2 H1 H2;
    [now rewrite emitted_nil_l|].
  induction l2 as [|b r2 IH2]; [now rewrite emitted_nil_r|].
  rewrite emitted_cons_cons.
  pose proof (Forall_inv H1) as Ha. pose proof (Forall_inv H2) as Hb.
  cbv beta in Ha, Hb. constructor.
  - destruct (has_overlap a b); [cbn; lia|].
    destruct (start a <? start b); assumption.
  - destruct (start a <? start b).
    + apply IH1; [exact (Forall_inv_tail H1) | exact H2].
    + apply IH2. exact (Forall_inv_tail H2).
Qed.

Lemma emitted_sorted (l1 : list SubtitleEntry) :
  forall l2,
    StronglySorted by_start l1 -> StronglySorted by_start l2 ->
    StronglySorted by_start (emitted l1 l2).
Proof.
  induction l1 as [|a r1 IH1]; intros l2 H1 H2;
    [now rewrite emitted_nil_l|].
  induction l2 as [|b r2 IH2]; [now rewrite emitted_nil_r|].
  rewrite emitted_cons_cons.
  apply StronglySorted_inv in H1 as H1'. destruct H1' as [S1 F1].
  apply StronglySorted_inv in H2 as H2'. destruct H2' as [S2 F2].
  set (h := if has_overlap a b then merge_entries a b
            else if start a <? start b then a else b).
  assert (Hh : start h = Z.min (start a) (start b)).
  { unfold h. destruct (has_overlap a b); [reflexivity|].
    destruct (Z.ltb_spec (start a) (start b)); lia. }
  assert (G1 : Forall (fun e => start h <= start e) (a :: r1)).
  { constructor; [lia|]. revert F1. apply Forall_impl.
    unfold by_start. intros e He. lia. }
  assert (G2 : Forall (fun e => start h <= start e) (b :: r2)).
  { constructor; [lia|]. revert F2. apply Forall_impl.
    unfold by_start. intros e He. lia. }
  constructor.
  - destruct (start a <? start b); [apply IH1 | apply IH2]; assumption.
  - destruct (start a <? start b).
    + apply emitted_lower_bound; [exact (Forall_inv_tail G1) | exact G2].
    + apply emitted_lower_bound; [exact G1 | exact (Forall_inv_tail G2)].
Qed.

Lemma by_start_trans : Relations_1.Transitive by_start.
Proof. unfold Relations_1.Transitive, by_start. intros; lia. Qed.

(** X13: when each source is sorted by start, the printed entries are
    sorted by start, whether or not entries overlap. *)
Theorem sequencer_sorted (l1 l2 : list SubtitleEntry) :
  Sorted by_start l1 -> Sorted by_start l2 ->
  exists st es,
    sequencer l1 l2 = Some st
    /\ stdout_of (trace st) = blocks_from 1 es
    /\ Sorted by_start es.
Proof.
  intros H1 H2.
  destruct (sequencer_emitted l1 l2) as (st & Hr & Ho & _).
  exists st, (emitted l1 l2). repeat split; try assumption.
  apply StronglySorted_Sorted, emitted_sorted;
    apply Sorted_StronglySorted; auto using by_start_trans.
Qed.

Lemma sequencer_sorted_witness :
  exists st es,
    sequencer [mkSubtitleEntry 0 2000 "A"; mkSubtitleEntry 4000 5000 "C"]
              [mkSubtitleEntry 1000 3000 "B"] = Some st
    /\ stdout_of (trace st) = blocks_from 1 es
    /\ Sorted by_start es.
Proof.
  apply (sequencer_sorted
           [mkSubtitleEntry 0 2000 "A"; mkSubtitleEntry 4000 5000 "C"]
           [mkSubtitleEntry 1000 3000 "B"]).
  - repeat constructor. unfold by_start; simpl; lia.
  - repeat constructor.
Defined.

Lemma emitted_no_overlap (l1 : list SubtitleEntry) :
  forall l2,
    (forall a b, In a l1 -> In b l2 -> has_overlap a b = false) ->
    Permutation (emitted l1 l2) (l1 ++ l2)
    /\ merged_count l1 l2 = 0%nat.
Proof.
  induction l1 as [|a r1 IH1]; intros l2 H.
  - rewrite emitted_nil_l. split; [apply Permutation_refl | now destruct l2].
  - induction l2 as [|b r2 IH2].
    + rewrite emitted_nil_r, app_nil_r. split; [apply Permutation_refl|reflexivity].
    + rewrite emitted_cons_cons, merged_count_cons_cons.
      rewrite (H a b (or_introl eq_refl) (or_introl eq_refl)).
      destruct (start a <? start b).
      * destruct (IH1 (b :: r2)) as [P C].
        { intros x y Hx Hy. apply H; [now right | exact Hy]. }
        split; [|exact C]. cbn [app]. now constructor.
      * destruct IH2 as [P C].
        { intros x y Hx Hy. apply H; [exact Hx | now right]. }
        split; [|exact C].
        apply Permutation_trans with (b :: (a :: r1) ++ r2);
          [now constructor | apply Permutation_middle].
Qed.

(** X14: when no entry of source 1 overlaps an entry of source 2, the
    printed entries are the entries of the two sources, each once, and no
    overlap warning is raised. *)
Theorem sequencer_no_overlap (l1 l2 : list SubtitleEntry) :
  (forall a b, In a l1 -> In b l2 -> has_overlap a b = false) ->
  exists st es,
    sequencer l1 l2 = Some st
    /\ stdout_of (trace st) = blocks_from 1 es
    /\ Permutation es (l1 ++ l2)
    /\ merges (trace st) = 0%nat.
Proof.
  intro H.
  destruct (sequencer_emitted l1 l2) as (st & Hr & Ho & Hg).
  destruct (emitted_no_overlap l1 l2 H) as [P C].
  exists st, (emitted l1 l2). repeat split; try assumption. congruence.
Qed.

Lemma sequencer_no_overlap_witness :
  exists st es,
    sequencer [mkSubtitleEntry 0 1000 "A"] [mkSubtitleEntry 2000 3000 "B"]
      = Some st
    /\ stdout_of (trace st) = blocks_from 1 es
    /\ Permutation es ([mkSubtitleEntry 0 1000 "A"]
                       ++ [mkSubtitleEntry 2000 3000 "B"])
    /\ merges (trace st) = 0%nat.
Proof.
  apply (sequencer_no_overlap
           [mkSubtitleEntry 0 1000 "A"] [mkSubtitleEntry 2000 3000 "B"]).
  intros a b [<-|[]] [<-|[]]. reflexivity.
Defined.

(** X15: with one source empty the other is printed as it is: every entry
    once, in its order, under the indices 1, 2, ..., and with no overlap
    warning. *)
Theorem sequencer_one_source (l : list SubtitleEntry) :
  (exists st, sequencer l [] = Some st
              /\ stdout_of (trace st) = blocks_from 1 l
              /\ merges (trace st) = 0%nat)
  /\ (exists st, sequencer [] l = Some st
                 /\ stdout_of (trace st) = blocks_from 1 l
                 /\ merges (trace st) = 0%nat).
Proof.
  split.
  - destruct (sequencer_emitted l []) as (st & Hr & Ho & Hg).
    rewrite emitted_nil_r in Ho. rewrite merged_count_nil_r in Hg.
    now exists st.
  - destruct (sequencer_emitted [] l) as (st & Hr & Ho & Hg).
    rewrite emitted_nil_l in Ho.
    assert (E : merged_count [] l = 0%nat) by now destruct l.
    rewrite E in Hg. now exists st.
Qed.

Lemma emitted_from_sources (l1 : list SubtitleEntry) :
  forall l2, Forall (from_sources l1 l2) (emitted l1 l2).
Proof.
  induction l1 as [|a r1 IH1]; intro l2.
  - rewrite emitted_nil_l. apply Forall_forall. intros e He.
    right; now left.
  - induction l2 as [|b r2 IH2].
    + rewrite emitted_nil_r. apply Forall_forall. intros e He. now left.
    + rewrite emitted_cons_cons. constructor.
      * destruct (has_overlap a b) eqn:Eo.
        -- right; right. exists a, b. repeat split; cbn; auto.
        -- destruct (start a <? start b);
             [left | right; left]; now left.
      * destruct (start a <? start b).
        -- specialize (IH1 (b :: r2)). revert IH1. apply Forall_impl.
           intros e [He|[He|(x & y & Hx & Hy & Ho & ->)]].
           ++ left; now right.
           ++ right; now left.
           ++ right; right. exists x, y. repeat split; auto. now right.
        -- revert IH2. apply Forall_impl.
           intros e [He|[He|(x & y & Hx & Hy & Ho & ->)]].
           ++ now left.
           ++ right; left; now right.
           ++ right; right. exists x, y. repeat split; auto. now right.
Qed.

(** X16: every printed entry is an entry of one of the sources or the
    merge of an entry of source 1 with an entry of source 2 that overlap;
    the sequencer never merges two entries of one source or two entries
    that do not overlap. *)
Theorem sequencer_from_sources (l1 l2 : list SubtitleEntry) :
  exists st es,
    sequencer l1 l2 = Some st
    /\ stdout_of (trace st) = blocks_from 1 es
    /\ Forall (from_sources l1 l2) es.
Proof.
  destruct (sequencer_emitted l1 l2) as (st & Hr & Ho & _).
  exists st, (emitted l1 l2). repeat split; try assumption.
  apply emitted_from_sources.
Qed.

(** X17: when both files are read, [main] ends: it returns the trace of
    a finished run, whose blocks carry the indices from 1 and are as many
    as the entries kept from the two files. *)
Theorem main_ends (read_text : string -> result string) (in1 in2 : Input)
  (subs1 subs2 : list SubtitleEntry) :
  read_subs read_text in1 = Ok subs1 ->
  read_subs read_text in2 = Ok subs2 ->
  exists evs es,
    main read_text in1 in2 = Ok (Some evs)
    /\ stdout_of evs = blocks_from 1 es
    /\ List.length es = (List.length subs1 + List.length subs2)%nat.
Proof.
  intros H1 H2. unfold main. rewrite H1, H2. cbn [bind].
  destruct (sequencer_spec subs1 subs2) as (st & es & Hr & _ & Hs & Hl).
  exists (trace st), es. rewrite Hr. now repeat split.
Qed.

Lemma main_ends_witness :
  exists evs es,
    main (fun _ => Ok one_block) (mkInput "a.srt" 0 0) (mkInput "b.srt" 0 0)
      = Ok (Some evs)
    /\ stdout_of evs = blocks_from 1 es
    /\ List.length es = (1 + 1)%nat.
Proof.
  apply (main_ends (fun _ => Ok one_block)
           (mkInput "a.srt" 0 0) (mkInput "b.srt" 0 0)
           [mkSubtitleEntry 1000 2000 "a"] [mkSubtitleEntry 1000 2000 "a"]);
    reflexivity.
Defined.

(** ** The command line *)

Lemma int_raises_ValueError (s : string) (e : exn) :
  Py.int s = Raise e -> exists msg, e = ValueError msg.
Proof.
  unfold Py.int.
  destruct (match Py.rstrip (Py.lstrip s) with
            | String "-" r => (true, r)
            | String "+" r => (false, r)
            | _ => (false, Py.rstrip (Py.lstrip s))
            end) as [neg body].
  destruct (Py.int_body 0 false body); intro H; inversion H.
  unfold Py.int_error. eexists; reflexivity.
Qed.

Lemma unpack_error_ValueError (n g : nat) :
  exists msg, Py.unpack_error n g = ValueError msg.
Proof.
  unfold Py.unpack_error. destruct (g <? n)%nat; eexists; reflexivity.
Qed.

Lemma skip_count_expected (v : string) (k : Z -> outcome (Z * Z)) :
  (forall n, expected _ (k n)) ->
  expected _ (and_then (lift (Py.int v)) k).
Proof.
  intro Hk. destruct (Py.int v) as [n|e] eqn:E; cbn [lift and_then].
  - apply Hk.
  - destruct (int_raises_ValueError v e E) as [msg ->].
    right; left. now exists msg.
Qed.

Lemma skip_item_expected (v : string) (acc : Z * Z) :
  expected _ (skip_item v acc).
Proof.
  destruct acc as [f l]. unfold skip_item.
  destruct v as [|v0 v1]; [right; right; reflexivity|].
  destruct (Ascii.eqb v0 "+").
  - destruct (f =? 0); [|right; left; eexists; reflexivity].
    apply skip_count_expected. intro n.
    destruct (n <=? 0); [right; left | left]; eexists; reflexivity.
  - destruct (Ascii.eqb v0 "-"); [|right; left; eexists; reflexivity].
    destruct (l =? 0); [|right; left; eexists; reflexivity].
    apply skip_count_expected. intro n.
    destruct (n <=? 0); [right; left | left]; eexists; reflexivity.
Qed.

Lemma skip_items_expected (vs : list string) :
  forall acc, expected _ (skip_items vs acc).
Proof.
  induction vs as [|v vs IH]; intro acc; cbn [skip_items].
  - left. now exists acc.
  - destruct (skip_item_expected v acc) as [[a ->] | [[m ->] | ->]];
      cbn [and_then].
    + apply IH.
    + right; left. now exists m.
    + right; right. reflexivity.
Qed.

Lemma tokenize_body_expected (d : skipspec) (value : string) :
  expected _ (tokenize_body d value).
Proof.
  unfold tokenize_body.
  assert (U : forall n g, expected skipspec
                (lift (Raise (Py.unpack_error n g)))).
  { intros n g. destruct (unpack_error_ValueError n g) as [m ->].
    right; left. now exists m. }
  destruct (Py.split ":" value) as [|spec [|rest [|x l]]]; try apply U.
  destruct (Py.int spec) as [n|e] eqn:E; cbn [lift and_then].
  - destruct (negb _); [right; left; eexists; reflexivity|].
    destruct (dict_mem d n); [right; left; eexists; reflexivity|].
    destruct (skip_items_expected (Py.split "," rest) (0, 0))
      as [[a ->] | [[m ->] | ->]]; cbn [and_then].
    + left. eexists; reflexivity.
    + right; left. now exists m.
    + right; right. reflexivity.
  - destruct (int_raises_ValueError spec e E) as [msg ->].
    right; left. now exists msg.
Qed.

(** X18: the converter of [-s] ends in one of three ways only: it returns,
    it raises the [ArgumentTypeError] that [argparse] reports as a parse
    error, or it raises an [IndexError]; no [ValueError] leaves it. *)
Theorem tokenize_skipspec_outcomes (d : skipspec) (value : string) :
  (exists d', tokenize_skipspec d value = Return d')
  \/ (exists msg,
        tokenize_skipspec d value
        = Throw (ArgumentTypeError ("parse error: " ++ msg)))
  \/ tokenize_skipspec d value
     = Throw (IndexError "string index out of range").
Proof.
  unfold tokenize_skipspec.
  destruct (tokenize_body_expected d value) as [[a ->] | [[m ->] | ->]].
  - left. now exists a.
  - right; left. now exists m.
  - right; right. reflexivity.
Qed.

Lemma skip_item_nonneg (v : string) (acc acc' : Z * Z) :
  skip_item v acc = Return acc' ->
  0 <= fst acc -> 0 <= snd acc -> 0 <= fst acc' /\ 0 <= snd acc'.
Proof.
  destruct acc as [f l]. unfold skip_item. cbn [fst snd].
  destruct v as [|v0 v1]; [discriminate|].
  destruct (Ascii.eqb v0 "+").
  - destruct (f =? 0); [|discriminate].
    destruct (Py.int v1) as [n|e]; cbn [lift and_then]; [|discriminate].
    destruct (Z.leb_spec n 0) as [Ln|Ln]; [discriminate|].
    intro G; injection G as <-. cbn. lia.
  - destruct (Ascii.eqb v0 "-"); [|discriminate].
    destruct (l =? 0); [|discriminate].
    destruct (Py.int v1) as [n|e]; cbn [lift and_then]; [|discriminate].
    destruct (Z.leb_spec n 0) as [Ln|Ln]; [discriminate|].
    intro G; injection G as <-. cbn. lia.
Qed.

Lemma skip_items_nonneg (vs : list string) :
  forall acc acc',
    skip_items vs acc = Return acc' ->
    0 <= fst acc -> 0 <= snd acc -> 0 <= fst acc' /\ 0 <= snd acc'.
Proof.
  induction vs as [|v vs IH]; intros acc acc'; cbn [skip_items].
  - intro H; injection H as <-. auto.
  - destruct (skip_item v acc) as [a|e] eqn:E; cbn [and_then]; [|discriminate].
    intros H Hf Hl.
    destruct (skip_item_nonneg v acc a E Hf Hl) as [Hf' Hl'].
    exact (IH a acc' H Hf' Hl').
Qed.

Lemma tokenize_skipspec_return (d d' : skipspec) (value : string) :
  tokenize_skipspec d value = Return d' ->
  exists n counts,
    (n = 1 \/ n = 2) /\ dict_mem d n = false
    /\ d' = dict_set d n counts
    /\ 0 <= fst counts /\ 0 <= snd counts.
Proof.
  unfold tokenize_skipspec.
  destruct (tokenize_body d value) as [a|e] eqn:E;
    [|destruct e as [[m|m]|m|m]; discriminate].
  intro H; injection H as <-.
  revert E. unfold tokenize_body.
  destruct (Py.split ":" value) as [|spec [|rest [|x l]]];
    try (unfold Py.unpack_error; destruct (_ <? _)%nat; discriminate).
  destruct (Py.int spec) as [n|e]; cbn [lift and_then]; [|discriminate].
  destruct (Z.leb_spec 1 n) as [L1|L1]; cbn [andb negb]; [|discriminate].
  destruct (Z.ltb_spec n 3) as [L3|L3]; cbn [negb]; [|discriminate].
  destruct (dict_mem d n) eqn:M; [discriminate|].
  destruct (skip_items (Py.split "," rest) (0, 0)) as [counts|e] eqn:S;
    cbn [and_then]; [|discriminate].
  intro G; injection G as <-.
  destruct (skip_items_nonneg _ _ _ S) as [Hf Hl]; cbn; try lia.
  exists n, counts. repeat split; auto. lia.
Qed.

Lemma dict_set_fresh (d : skipspec) (k : Z) (v : Z * Z) :
  dict_mem d k = false ->
  dict_set d k v = (d ++ [(k, v)])%list /\ ~ In k (map fst d).
Proof.
  unfold dict_mem.
  induction d as [|[k' v'] d IH]; cbn [dict_get dict_set map app In fst].
  - intros _. split; [reflexivity | tauto].
  - destruct (Z.eqb_spec k' k) as [->|Hne]; [discriminate|].
    intro H. destruct (IH H) as [E Hn]. rewrite E. split; [reflexivity|].
    intros [F|F]; [congruence | contradiction].
Qed.

Lemma dict_get_in (d : skipspec) (k : Z) (v : Z * Z) :
  dict_get d k = Some v -> In (k, v) d.
Proof.
  induction d as [|[k' v'] d IH]; cbn [dict_get In]; [discriminate|].
  destruct (Z.eqb_spec k' k) as [->|Hne].
  - intro H; injection H as <-. now left.
  - intro H. right. now apply IH.
Qed.

Lemma tokenize_all_ok (values : list string) :
  forall d d',
    skipspec_ok d ->
    tokenize_all d values = Return d' ->
    skipspec_ok d'
    /\ List.length d' = (List.length d + List.length values)%nat.
Proof.
  induction values as [|v values IH]; intros d d' Hd; cbn [tokenize_all].
  - intro H; injection H as <-. split; [assumption | cbn; lia].
  - destruct (tokenize_skipspec d v) as [d1|e] eqn:E; cbn [and_then];
      [|discriminate].
    intro H.
    destruct (tokenize_skipspec_return d d1 v E)
      as (n & counts & Hn & Hm & -> & Hf & Hl).
    destruct (dict_set_fresh d n counts Hm) as [Es Hnot].
    rewrite Es in H.
    destruct (IH (d ++ [(n, counts)])%list d') as [Hok Hlen]; [|exact H|].
    + destruct Hd as [Hnd Hall]. split.
      * rewrite map_app. cbn [map fst].
        apply NoDup_app;
          [assumption | constructor; [intros [] | constructor] |].
        intros x Hx [<-|[]]. contradiction.
      * apply Forall_app. split; [assumption|].
        constructor; [cbn; auto | constructor].
    + split; [assumption|]. rewrite Hlen, length_app. cbn. lia.
Qed.

Lemma skipspec_ok_length (d : skipspec) :
  skipspec_ok d -> (List.length d <= 2)%nat.
Proof.
  intros [Hnd Hall].
  rewrite <- (length_map fst d).
  change 2%nat with (List.length [1; 2]).
  apply NoDup_incl_length; [assumption|].
  intros k Hk. apply in_map_iff in Hk. destruct Hk as ([k' v] & <- & Hin).
  rewrite Forall_forall in Hall. destruct (Hall _ Hin) as [[->| ->] _];
    cbn; tauto.
Qed.

(** X19: when all [-s] values are accepted there are at most two of them,
    and the skip counts handed to [main] for both files are not negative. *)
Theorem accepted_skipspecs (values : list string) (d : skipspec) :
  tokenize_all [] values = Return d ->
  (List.length values <= 2)%nat
  /\ forall k name,
       0 <= skip_first (input_of d k name)
       /\ 0 <= skip_last (input_of d k name).
Proof.
  intro H.
  destruct (tokenize_all_ok values [] d) as [Hok Hlen];
    [split; constructor | exact H |].
  split.
  - pose proof (skipspec_ok_length d Hok). cbn in Hlen. lia.
  - intros k name. unfold input_of. cbn [skip_first skip_last].
    destruct (dict_get d k) as [v|] eqn:G; [|cbn; lia].
    apply dict_get_in in G. destruct Hok as [_ Hall].
    rewrite Forall_forall in Hall. destruct (Hall _ G) as (_ & Hf & Hl).
    cbn in Hf, Hl. lia.
Qed.

Lemma accepted_skipspecs_witness :
  (List.length ["2:-1"; "1:+2,-3"] <= 2)%nat
  /\ forall k name,
       0 <= skip_first (input_of [(2, (0, 1)); (1, (2, 3))] k name)
       /\ 0 <= skip_last (input_of [(2, (0, 1)); (1, (2, 3))] k name).
Proof.
  apply (accepted_skipspecs ["2:-1"; "1:+2,-3"] [(2, (0, 1)); (1, (2, 3))]).
  vm_compute. reflexivity.
Defined.

Lemma str_nonneg (z : Z) :
  0 <= z ->
  str_all Py.is_digit (Py.str z) = true
  /\ (1 <= String.length (Py.str z))%nat
  /\ Py.int (Py.str z) = Ok z.
Proof.
  intro Hz. unfold Py.str. destruct (Z.ltb_spec z 0); [lia|].
  destruct (digits_spec z Hz) as (Hd & Hv & Hl & _).
  repeat split; try assumption.
  rewrite int_digits by assumption. now rewrite Hv.
Qed.

Lemma tokenize_head (d : skipspec) (n : Z) (rest : string) :
  n = 1 \/ n = 2 ->
  str_all (fun c => negb (Ascii.eqb c ":")) rest = true ->
  tokenize_body d (Py.str n ++ String ":" rest)
  = if dict_mem d n then
      raise_ValueError ("specifier " ++ Py.str n ++ " already used")
    else
      and_then (skip_items (Py.split "," rest) (0, 0)) (fun counts =>
      Return (dict_set d n counts)).
Proof.
  intros Hn Hr.
  destruct (str_nonneg n ltac:(lia)) as (Hd & Hl & Hi).
  unfold tokenize_body.
  change (Py.split ":" (Py.str n ++ String ":" rest))
    with (Py.split (String ":" "") (Py.str n ++ String ":" rest)).
  rewrite split_sep by (now apply digits_no_sep).
  rewrite split_nosep by assumption.
  rewrite Hi. cbn [lift and_then].
  destruct Hn as [-> | ->]; reflexivity.
Qed.

(** X20: a value written [N:+A,-B] with N the number of an input not yet
    given and A, B positive is accepted, and records A as the count to skip
    at the front and B as the count to skip at the back of input N. *)
Theorem tokenize_skipspec_round_trip (d : skipspec) (n a b : Z) :
  n = 1 \/ n = 2 -> dict_mem d n = false -> 0 < a -> 0 < b ->
  tokenize_skipspec d
    (Py.str n ++ ":+" ++ Py.str a ++ ",-" ++ Py.str b)
  = Return (dict_set d n (a, b))
  /\ dict_get (dict_set d n (a, b)) n = Some (a, b).
Proof.
  intros Hn Hm Ha Hb.
  destruct (str_nonneg a ltac:(lia)) as (Da & La & Ia).
  destruct (str_nonneg b ltac:(lia)) as (Db & Lb & Ib).
  split.
  - unfold tokenize_skipspec.
    change (Py.str n ++ ":+" ++ Py.str a ++ ",-" ++ Py.str b)%string
      with (Py.str n ++ String ":"
              (String "+" (Py.str a ++ String "," (String "-" (Py.str b)))))%string.
    rewrite tokenize_head; [|assumption|].
    2: { cbn [str_all]. rewrite str_all_append. cbn [str_all].
         rewrite !(digits_no_sep ":" _ eq_refl) by assumption. reflexivity. }
    rewrite Hm.
    change (Py.split "," (String "+" (Py.str a ++ String "," (String "-" (Py.str b)))))
      with (Py.split (String "," "")
              (String "+" (Py.str a) ++ String "," (String "-" (Py.str b)))).
    rewrite split_sep.
    2: { cbn [str_all]. now rewrite (digits_no_sep "," _ eq_refl). }
    rewrite split_nosep.
    2: { cbn [str_all]. now rewrite (digits_no_sep "," _ eq_refl). }
    cbn [skip_items skip_item Ascii.eqb Bool.eqb Z.eqb].
    rewrite Ia. cbn [lift and_then].
    destruct (Z.leb_spec a 0); [lia|]. cbn [and_then skip_item].
    cbn [Ascii.eqb Bool.eqb Z.eqb].
    rewrite Ib. cbn [lift and_then].
    destruct (Z.leb_spec b 0); [lia|]. reflexivity.
  - clear. induction d as [|[k v] d IH]; cbn [dict_set dict_get].
    + now rewrite Z.eqb_refl.
    + destruct (Z.eqb_spec k n) as [->|Hne]; cbn [dict_get].
      * now rewrite Z.eqb_refl.
      * destruct (Z.eqb_spec k n); [contradiction | exact IH].
Qed.

Lemma tokenize_skipspec_round_trip_witness :
  tokenize_skipspec [] (Py.str 1 ++ ":+" ++ Py.str 12 ++ ",-" ++ Py.str 3)
  = Return (dict_set [] 1 (12, 3))
  /\ dict_get (dict_set [] 1 (12, 3)) 1 = Some (12, 3).
Proof.
  apply (tokenize_skipspec_round_trip [] 1 12 3); auto; lia.
Defined.

Lemma skip_items_app (xs ys : list string) :
  forall acc,
    skip_items (xs ++ ys) acc = and_then (skip_items xs acc) (skip_items ys).
Proof.
  induction xs as [|x xs IH]; intro acc; cbn [app skip_items and_then];
    [reflexivity|].
  destruct (skip_item x acc) as [a|e]; cbn [and_then]; [apply IH|reflexivity].
Qed.

(** X21: an empty item in the list after the colon (nothing after the
    colon, a doubled or a trailing comma) met after valid items makes the
    converter raise [IndexError], which is not a parse error of [argparse]. *)
Theorem tokenize_skipspec_empty_item
  (d : skipspec) (n : Z) (rest : string) (pre post : list string)
  (acc : Z * Z) :
  n = 1 \/ n = 2 -> dict_mem d n = false ->
  str_all (fun c => negb (Ascii.eqb c ":")) rest = true ->
  Py.split "," rest = (pre ++ "" :: post)%list ->
  skip_items pre (0, 0) = Return acc ->
  tokenize_skipspec d (Py.str n ++ String ":" rest)
  = Throw (IndexError "string index out of range").
Proof.
  intros Hn Hm Hr Hs Hp. unfold tokenize_skipspec.
  rewrite tokenize_head by assumption.
  rewrite Hm, Hs, skip_items_app, Hp. cbn [and_then skip_items skip_item].
  now destruct acc.
Qed.

Lemma tokenize_skipspec_empty_item_witness :
  tokenize_skipspec [] (Py.str 1 ++ String ":" "+5,")
  = Throw (IndexError "string index out of range").
Proof.
  apply (tokenize_skipspec_empty_item [] 1 "+5," ["+5"] [] (5, 0));
    auto; reflexivity.
Defined.

Lemma dict_mem_set (d : skipspec) (k : Z) (v : Z * Z) :
  dict_mem (dict_set d k v) k = true.
Proof.
  unfold dict_mem.
  induction d as [|[k' v'] d IH]; cbn [dict_set dict_get].
  - now rewrite Z.eqb_refl.
  - destruct (Z.eqb_spec k' k) as [->|Hne]; cbn [dict_get].
    + now rewrite Z.eqb_refl.
    + destruct (Z.eqb_spec k' k); [contradiction | exact IH].
Qed.

(** X22: a value that was accepted is rejected when it is given again:
    the second conversion reports that the specifier is already used. *)
Theorem tokenize_skipspec_twice (d d' : skipspec) (value : string) :
  tokenize_skipspec d value = Return d' ->
  exists n,
    (n = 1 \/ n = 2)
    /\ tokenize_skipspec d' value
       = Throw (ArgumentTypeError
                  ("parse error: specifier " ++ Py.str n ++ " already used")).
Proof.
  unfold tokenize_skipspec.
  destruct (tokenize_body d value) as [a|e] eqn:E;
    [|destruct e as [[m|m]|m|m]; discriminate].
  intro G; injection G as <-.
  revert E. unfold tokenize_body.
  destruct (Py.split ":" value) as [|spec [|rest [|x l]]];
    try (unfold Py.unpack_error; destruct (_ <? _)%nat; discriminate).
  destruct (Py.int spec) as [n|e]; cbn [lift and_then]; [|discriminate].
  destruct (Z.leb_spec 1 n) as [L1|L1]; cbn [andb negb]; [|discriminate].
  destruct (Z.ltb_spec n 3) as [L3|L3]; cbn [negb]; [|discriminate].
  destruct (dict_mem d n) eqn:M; [discriminate|].
  destruct (skip_items (Py.split "," rest) (0, 0)) as [counts|e] eqn:S;
    cbn [and_then]; [|discriminate].
  intro G; injection G as <-.
  exists n. split; [lia|].
  now rewrite dict_mem_set.
Qed.

Lemma tokenize_skipspec_twice_witness :
  exists n,
    (n = 1 \/ n = 2)
    /\ tokenize_skipspec [(2, (0, 4))] "2:-4"
       = Throw (ArgumentTypeError
                  ("parse error: specifier " ++ Py.str n ++ " already used")).
Proof.
  apply (tokenize_skipspec_twice [] [(2, (0, 4))] "2:-4"). reflexivity.
Defined.

(** ** The debug rendering *)

Lemma count_of_str_all (x : ascii) (s : string) :
  str_all (fun c => negb (Ascii.eqb c x)) s = true -> Py.count s x = 0.
Proof.
  induction s as [|c s IH]; cbn [str_all Py.count]; [reflexivity|].
  intro H. apply andb_true_iff in H. destruct H as [Hc Hs].
  apply negb_true_iff in Hc. rewrite Hc, (IH Hs). reflexivity.
Qed.

Lemma split_pieces (x : ascii) (s : string) :
  Forall (fun q => Py.count q x = 0) (Py.split (String x "") s).
Proof.
  unfold Py.split.
  assert (H : forall s,
             Py.count (fst (Py.split_aux (String x "") 0 s)) x = 0
             /\ Forall (fun q => Py.count q x = 0)
                       (snd (Py.split_aux (String x "") 0 s))).
  { clear s. induction s as [|c s [IHp IHq]]; [split; [reflexivity|constructor]|].
    cbn [Py.split_aux]. rewrite prefix_one. cbn [String.length Nat.sub].
    destruct (Py.split_aux (String x "") 0 s) as [p ps]. cbn [fst snd] in *.
    destruct (Ascii.eqb c x) eqn:E; cbn [fst snd Py.count].
    - split; [reflexivity | now constructor].
    - rewrite E, IHp. split; [reflexivity | assumption]. }
  specialize (H s). destruct (Py.split_aux (String x "") 0 s) as [p ps].
  cbn [fst snd] in H. destruct H. now constructor.
Qed.

Lemma join_count (sep : string) (c : ascii) (l : list string) :
  Py.count sep c = 0 ->
  Forall (fun q => Py.count q c = 0) l ->
  Py.count (Py.join sep l) c = 0.
Proof.
  intros Hs Hl. induction Hl as [|q l Hq Hl IH]; [reflexivity|].
  cbn [Py.join]. destruct l as [|q' l']; [assumption|].
  rewrite !count_append, Hq, Hs, IH. reflexivity.
Qed.

Lemma SubtitleEntry_str_count (e : SubtitleEntry) :
  Py.count (SubtitleEntry_str e) (ascii_of_nat 10) = 0.
Proof.
  unfold SubtitleEntry_str, Py.LF. rewrite !count_append.
  rewrite !(count_of_str_all _ _
              (str_all_impl _ _ _ tc_char_not_LF (str_chars _))).
  rewrite !(count_of_str_all _ _
              (str_all_impl _ _ _ tc_char_not_LF (timecode_chars _))).
  rewrite (join_count " * " (ascii_of_nat 10) _ eq_refl
             (split_pieces (ascii_of_nat 10) (text e))).
  reflexivity.
Qed.

(** X23: the debug rendering of an entry holds no line break, whatever the
    text (its lines are joined by [ * ]), so the two warnings of the program
    are one line each. *)
Theorem SubtitleEntry_str_one_line (e : SubtitleEntry) (a b : item) :
  Py.count (SubtitleEntry_str e) (ascii_of_nat 10) = 0
  /\ (exists m, excessive_lines e = Warn m
                /\ Py.count m (ascii_of_nat 10) = 0)
  /\ (exists m, overlap_warning a b = Warn m
                /\ Py.count m (ascii_of_nat 10) = 0).
Proof.
  split; [apply SubtitleEntry_str_count|]. split.
  - eexists. split; [reflexivity|].
    rewrite count_append, SubtitleEntry_str_count. reflexivity.
  - eexists. split; [reflexivity|].
    rewrite !count_append, !SubtitleEntry_str_count.
    rewrite !(count_of_str_all _ _
                (str_all_impl _ _ _ tc_char_not_LF (str_chars _))).
    reflexivity.
Qed.
